(** * Zehnder Cloud integration for Home Assistant

    A shallow embedding of [custom_components/zehndercloud] and the
    properties of its update coordinator, descriptor tables, fan and select
    entities.

    Layout: Python values and exceptions; the effect monad; the API client
    and host-framework helpers the integration calls; one module per source
    file ([coordinator] for [__init__.py], [sensor], [binary_sensor], [fan],
    [select]); then the lemmas and theorems. *)

From Stdlib Require Import ZArith QArith Qround String Ascii List Lia.
From stdpp Require Import gmap strings pretty.

Set Warnings "-register-all".

Open Scope string_scope.
Open Scope Z_scope.

(** ** Python values

    The API delivers JSON: null, booleans, integers, floats, strings,
    arrays and objects.  A Python [float] is represented by the rational
    it denotes (only finite floats occur in JSON).  The true division of
    two ints rounds to the nearest binary64 as Python does; the host's
    percentage helpers are taken over the rationals. *)

Inductive PyVal : Type :=
  | VNone
  | VBool (b : bool)
  | VInt (n : Z)
  | VFloat (q : Q)
  | VStr (s : string)
  | VList (l : list PyVal)
  | VDict (d : gmap string PyVal).

(** ** Python exceptions

    All of these derive from [Exception], so an [except Exception] clause
    catches each of them; signals of the interpreter that derive from
    [BaseException] only (task cancellation, keyboard interrupt) are not
    results of an API call and are not modelled.  [ConfigEntryAuthFailed]
    and [UpdateFailed] carry the exception they were raised [from]. *)

Inductive PyExc : Type :=
  | AuthError (msg : string)
  | TimeoutError
  | KeyError (key : string)
  | TypeError (msg : string)
  | ValueError (msg : string)
  | AttributeError (msg : string)
  | ZeroDivisionError
  | OtherException (cls msg : string)
  | ConfigEntryAuthFailed (msg : string) (cause : PyExc)
  | UpdateFailed (msg : string) (cause : option PyExc).

(** [str(ex)], as interpolated by an f-string. *)
Definition str_exc (ex : PyExc) : string :=
  match ex with
  | AuthError msg => msg
  | TimeoutError => EmptyString
  | KeyError key => "'" +:+ key +:+ "'"
  | TypeError msg => msg
  | ValueError msg => msg
  | AttributeError msg => msg
  | ZeroDivisionError => "division by zero"
  | OtherException _ msg => msg
  | ConfigEntryAuthFailed msg _ => msg
  | UpdateFailed msg _ => msg
  end.

(** [isinstance(ex, AuthError)]. *)
Definition is_AuthError (ex : PyExc) : bool :=
  match ex with
  | AuthError _ => true
  | _ => false
  end.

(** A computation that returns or raises. *)
Inductive result (A : Type) : Type :=
  | Ok (a : A)
  | Raise (ex : PyExc).

Arguments Ok {A} a.
Arguments Raise {A} ex.

Definition is_Ok {A} (r : result A) : bool :=
  match r with
  | Ok _ => true
  | Raise _ => false
  end.

#[global] Instance result_ret : MRet result := fun A a => Ok a.

#[global] Instance result_bind : MBind result := fun A B f r =>
  match r with
  | Ok a => f a
  | Raise ex => Raise ex
  end.

(** ** Builtins used by the extraction lambdas *)

Module builtins.

(** The whitespace [int()] skips around an ASCII numeral: tab, line feed,
    vertical tab, form feed, carriage return and space. *)
Definition is_space (c : ascii) : bool :=
  let n := nat_of_ascii c in
  ((9 <=? n) && (n <=? 13) || (n =? 32))%nat.

Definition digit_of (c : ascii) : option Z :=
  let n := nat_of_ascii c in
  if ((48 <=? n) && (n <=? 57))%nat then Some (Z.of_nat n - 48) else None.

Fixpoint lstrip (s : string) : string :=
  match s with
  | String c rest => if is_space c then lstrip rest else s
  | EmptyString => EmptyString
  end.

Definition strip (s : string) : string :=
  String.rev (lstrip (String.rev (lstrip s))).

(** Decimal digits, single underscores allowed between digits. *)
Fixpoint digits (s : string) (acc : Z) (after_digit : bool) : option Z :=
  match s with
  | EmptyString => if after_digit then Some acc else None
  | String c rest =>
      match digit_of c with
      | Some d => digits rest (10 * acc + d) true
      | None =>
          if Ascii.eqb c "_"%char && after_digit then digits rest acc false else None
      end
  end.

(** [int(s)] for a string, base 10 (ASCII input). *)
Definition int_of_string (s : string) : option Z :=
  match strip s with
  | String "-"%char rest => Z.opp <$> digits rest 0 false
  | String "+"%char rest => digits rest 0 false
  | t => digits t 0 false
  end.

(** [int(x)]. *)
Definition int (x : PyVal) : result Z :=
  match x with
  | VInt n => Ok n
  | VBool b => Ok (Z.b2z b)
  | VFloat q => Ok (Z.quot (Qnum q) (Z.pos (Qden q)))
  | VStr s =>
      match int_of_string s with
      | Some n => Ok n
      | None => Raise (ValueError "invalid literal for int() with base 10")
      end
  | VNone | VList _ | VDict _ =>
      Raise (TypeError "int() argument must be a string, a bytes-like object or a real number")
  end.

(** [bool(x)]. *)
Definition bool (x : PyVal) : Datatypes.bool :=
  match x with
  | VNone => false
  | VBool b => b
  | VInt n => negb (n =? 0)
  | VFloat q => negb (Qeq_bool q 0)
  | VStr s => negb (String.eqb s EmptyString)
  | VList l => negb (Nat.eqb (length l) 0)
  | VDict d => negb (Nat.eqb (size d) 0)
  end.

(** [num / den] rounded to the nearest integer, ties to the even one
    ([den] positive). *)
Definition round_half_even (num den : Z) : Z :=
  let m := num / den in
  let r := num mod den in
  if 2 * r <? den then m
  else if den <? 2 * r then m + 1
  else if Z.even m then m else m + 1.

(** The binary64 float nearest to [n / d] ([d] positive), ties to even:
    53 bits of mantissa, the unit in the last place [2 ^ u] with [u] no
    less than -1074 (subnormals); [None] when the rounded value reaches
    [2 ^ 1024], beyond the largest float. *)
Definition binary64_div (n d : Z) : option Q :=
  if n =? 0 then Some 0%Q
  else
    let a := Z.abs n in
    let e0 := Z.log2 a - Z.log2 d in
    let below :=
      if 0 <=? e0 then a <? d * 2 ^ e0 else a * 2 ^ (- e0) <? d in
    let e := if below then e0 - 1 else e0 in
    let u := Z.max (e - 52) (-1074) in
    if 0 <=? u then
      let m := round_half_even n (d * 2 ^ u) in
      if 2 ^ 1024 <=? Z.abs m * 2 ^ u then None
      else Some (inject_Z (m * 2 ^ u))
    else
      let m := round_half_even (n * 2 ^ (- u)) d in
      Some (Qmake m (Z.to_pos (2 ^ (- u)))).

(** [a / b] on two ints: true division.  The result is the float nearest
    to the quotient; a quotient beyond the float range raises
    [OverflowError]. *)
Definition truediv (a b : Z) : result PyVal :=
  if b =? 0 then Raise ZeroDivisionError
  else
    match (if 0 <? b then binary64_div a b else binary64_div (- a) (- b)) with
    | Some q => Ok (VFloat q)
    | None =>
        Raise (OtherException "OverflowError" "integer division result too large for a float")
    end.

(** [d.get(key)]: [None] when the key is absent. *)
Definition dict_get (d : gmap string PyVal) (key : string) : PyVal :=
  default VNone (d !! key).

(** [x is None]. *)
Definition is_None (x : PyVal) : Datatypes.bool :=
  match x with
  | VNone => true
  | _ => false
  end.

(** [math.ceil]. *)
Definition math_ceil (x : Q) : Z := Qceiling x.

End builtins.

Arguments builtins.binary64_div : simpl never.

(** ** Effects: API calls and refresh requests

    Awaited calls are sequential; what the integration does to the outside
    world is the chronological list of calls it issued. *)

Inductive Event : Type :=
  | EvGetDeviceState (device_id : Z)
  | EvGetDeviceDetails (device_id : Z)
  | EvSetDeviceSettings (device_id : Z) (patch : gmap string PyVal)
  | EvRequestRefresh.

Record M (A : Type) : Type := mkM { run : list Event -> list Event * result A }.

Arguments mkM {A} run.
Arguments run {A} m tr.

#[global] Instance M_ret : MRet M := fun A a => mkM (fun tr => (tr, Ok a)).

#[global] Instance M_bind : MBind M := fun A B f m =>
  mkM (fun tr =>
    match run m tr with
    | (tr', Ok a) => run (f a) tr'
    | (tr', Raise ex) => (tr', Raise ex)
    end).

Definition raise {A} (ex : PyExc) : M A := mkM (fun tr => (tr, Raise ex)).

Definition emit (ev : Event) : M unit := mkM (fun tr => ((tr ++ [ev])%list, Ok tt)).

Definition lift {A} (r : result A) : M A := mkM (fun tr => (tr, r)).

(** [try: body / except Exception as ex: handler(ex)]. *)
Definition try_except {A} (body : M A) (handler : PyExc -> M A) : M A :=
  mkM (fun tr =>
    match run body tr with
    | (tr', Ok a) => (tr', Ok a)
    | (tr', Raise ex) => run (handler ex) tr'
    end).

(** The result and the calls of a computation started on an empty trace. *)
Definition result_of {A} (m : M A) : result A := snd (run m []).
Definition trace_of {A} (m : M A) : list Event := fst (run m []).

(** ** The API client (package [pyzehndercloud])

    The client is an external collaborator: it is represented by what each
    of its calls answers.  An awaited call completes [elapsed] seconds after
    it was started, returning or raising [outcome]. *)

Record Awaitable (A : Type) : Type := { elapsed : Q; outcome : result A }.

Arguments elapsed {A} a.
Arguments outcome {A} a.

Module DeviceState.

Record t : Type := mk { data : gmap string PyVal }.

(** Modelled from the spec: [DeviceState.value] is a method of the client
    package, which is not under src/.  Spec 3: the state is a string-keyed
    mapping of primitive values; spec 4.2 and 7: looking up a key that is
    absent fails (field-missing), and the failure propagates to the entity
    that reads it. *)
Definition value (self : t) (key : string) : result PyVal :=
  match data self !! key with
  | Some v => Ok v
  | None => Raise (KeyError key)
  end.

End DeviceState.

Module DeviceDetails.

Record t : Type := mk { data : gmap string PyVal }.

End DeviceDetails.

Record ZehnderCloud : Type := {
  get_device_state : Z -> Awaitable DeviceState.t;
  get_device_details : Z -> Awaitable DeviceDetails.t;
  set_device_settings : Z -> gmap string PyVal -> Awaitable unit
}.

(** ** Host helpers *)

Module async_timeout.

(** Modelled from the spec: [async with async_timeout.timeout(delay)]
    around one awaited call; the package is not under src/.  Spec 5: a call
    that exceeds the bound is cancelled and a timeout is raised in its
    place; a call that stays within the bound delivers its own outcome. *)
Definition timeout {A} (delay : Q) (call : Awaitable A) : result A :=
  if Qle_bool (elapsed call) delay then outcome call else Raise TimeoutError.

End async_timeout.

Module percentage.

(** [homeassistant.util.percentage]: host-framework helpers imported by
    [fan.py]; they are not under src/. *)

Definition states_in_range (low_high_range : Z * Z) : Z :=
  snd low_high_range - fst low_high_range + 1.

Definition int_states_in_range (low_high_range : Z * Z) : Z :=
  states_in_range low_high_range.

(** Modelled from the spec: the host's [percentage_to_ranged_value] is not
    under src/.  Spec 4.3: the percentage scale is mapped linearly onto the
    steps of the range, percentage 0 falling below the range; the caller
    rounds the result up.  The value is
    [states * percentage / 100 + (low - 1)], a float. *)
Definition percentage_to_ranged_value (low_high_range : Z * Z) (percentage : Z) : Q :=
  let offset := fst low_high_range - 1 in
  inject_Z (states_in_range low_high_range) * inject_Z percentage / 100
  + inject_Z offset.

(** Modelled from the spec: the host's [ranged_value_to_percentage] is not
    under src/.  Spec 4.3: it is the inverse linear mapping; [fan.py]
    declares its result an [int], the helper floors:
    [int(((value - (low - 1)) * 100) // states)]. *)
Definition ranged_value_to_percentage (low_high_range : Z * Z) (value : PyVal) : result Z :=
  let offset := fst low_high_range - 1 in
  let states := states_in_range low_high_range in
  if states =? 0 then Raise ZeroDivisionError
  else
    match value with
    | VInt n => Ok (((n - offset) * 100) / states)
    | VBool b => Ok (((Z.b2z b - offset) * 100) / states)
    | VFloat q => Ok (Qfloor ((q - inject_Z offset) * 100 / inject_Z states))
    | VNone | VStr _ | VList _ | VDict _ =>
        Raise (TypeError "unsupported operand type(s) for -")
    end.

End percentage.

(** ** [__init__.py]: the update coordinator *)

Module coordinator.

Definition DOMAIN : string := "zehndercloud".

(** [timedelta(seconds=30)]. *)
Definition DEFAULT_UPDATE_INTERVAL : Q := 30.

(** The dict [{"state": state, "details": details}] of one fetch cycle. *)
Module Snapshot.

Record t : Type := mk { state : DeviceState.t; details : DeviceDetails.t }.

End Snapshot.

(** [data], [last_update_success] and [last_exception] are the attributes
    the class inherits from the host's [DataUpdateCoordinator]; [data] is
    [None] until a fetch cycle has succeeded. *)
Record ZehnderCloudUpdateCoordinator : Type := mk {
  _client : ZehnderCloud;
  _device_id : Z;
  data : option Snapshot.t;
  last_update_success : bool;
  last_exception : option PyExc
}.

Definition __init__ (client : ZehnderCloud) (device_id : Z) : ZehnderCloudUpdateCoordinator :=
  {| _client := client; _device_id := device_id;
     data := None; last_update_success := true; last_exception := None |}.

(** The two awaited calls inside the [try] block; the debug logging
    between them has no effect on the result and is left out. *)
Definition fetch (self : ZehnderCloudUpdateCoordinator) : M (DeviceState.t * DeviceDetails.t) :=
  _ ← emit (EvGetDeviceState (_device_id self));
  state ← lift (async_timeout.timeout 10 (get_device_state (_client self) (_device_id self)));
  _ ← emit (EvGetDeviceDetails (_device_id self));
  details ← lift (async_timeout.timeout 10 (get_device_details (_client self) (_device_id self)));
  mret (state, details).

(** The [except AuthError] and [except Exception] clauses, in that order. *)
Definition except_clauses {A} (ex : PyExc) : M A :=
  if is_AuthError ex then
    raise (ConfigEntryAuthFailed "Credentials expired for Zehnder Cloud" ex)
  else
    raise (UpdateFailed ("Error communicating with API: " +:+ str_exc ex) (Some ex)).

(** Update data via library. *)
Definition _async_update_data (self : ZehnderCloudUpdateCoordinator) : M Snapshot.t :=
  '(state, details) ← try_except (fetch self) except_clauses;
  if builtins.is_None (builtins.dict_get (DeviceState.data state) "timestamp") then
    raise (UpdateFailed "Update from Zehnder Cloud did not contain data" None)
  else
    mret (Snapshot.mk state details).

Definition client (self : ZehnderCloudUpdateCoordinator) : ZehnderCloud := _client self.

Definition device_id (self : ZehnderCloudUpdateCoordinator) : Z := _device_id self.

(** [self.data.get("state")]; before the first successful cycle [data] is
    [None] and the attribute access fails. *)
Definition state (self : ZehnderCloudUpdateCoordinator) : result DeviceState.t :=
  match data self with
  | Some d => Ok (Snapshot.state d)
  | None => Raise (AttributeError "'NoneType' object has no attribute 'get'")
  end.

Definition details (self : ZehnderCloudUpdateCoordinator) : result DeviceDetails.t :=
  match data self with
  | Some d => Ok (Snapshot.details d)
  | None => Raise (AttributeError "'NoneType' object has no attribute 'get'")
  end.

(** Modelled from the spec: the refresh step of the host's
    [DataUpdateCoordinator], which is not under src/.  Spec 2 and 4.1: it
    runs one fetch cycle; on success the new snapshot replaces the stored
    one, on failure the error is recorded and the stored snapshot is
    retained. *)
Definition async_refresh (self : ZehnderCloudUpdateCoordinator) : M ZehnderCloudUpdateCoordinator :=
  mkM (fun tr =>
    match run (_async_update_data self) tr with
    | (tr', Ok snapshot) =>
        (tr', Ok {| _client := _client self; _device_id := _device_id self;
                    data := Some snapshot; last_update_success := true;
                    last_exception := None |})
    | (tr', Raise ex) =>
        (tr', Ok {| _client := _client self; _device_id := _device_id self;
                    data := data self; last_update_success := false;
                    last_exception := Some ex |})
    end).

(** The client as it answers during a later cycle. *)
Definition with_client (self : ZehnderCloudUpdateCoordinator) (api : ZehnderCloud) : ZehnderCloudUpdateCoordinator :=
  {| _client := api; _device_id := _device_id self; data := data self;
     last_update_success := last_update_success self;
     last_exception := last_exception self |}.

(** Successive fetch cycles, one per entry of [apis]. *)
Fixpoint poll (self : ZehnderCloudUpdateCoordinator) (apis : list ZehnderCloud) : ZehnderCloudUpdateCoordinator :=
  match apis with
  | [] => self
  | api :: rest =>
      match result_of (async_refresh (with_client self api)) with
      | Ok self' => poll self' rest
      | Raise _ => self
      end
  end.

(** [get_snapshot()] of the spec: the stored snapshot. *)
Definition get_snapshot (self : ZehnderCloudUpdateCoordinator) : option Snapshot.t := data self.

End coordinator.

(** [coordinator.state.value(key)], the lookup every extraction lambda
    starts with. *)
Definition state_value (c : coordinator.ZehnderCloudUpdateCoordinator) (key : string) : result PyVal :=
  st ← coordinator.state c;
  DeviceState.value st key.

(** ** [sensor.py] *)

Module sensor.

(** Of the description's fields the display metadata (device class, state
    class, category, unit, icon) is left out, and of the entity its
    [_attr_unique_id]. *)
Record ZehnderCloudSensorEntityDescription : Type := Description {
  key : string;
  name : string;
  entity_registry_enabled_default : bool;
  value_fn : coordinator.ZehnderCloudUpdateCoordinator -> result PyVal
}.

Definition SENSORS : list ZehnderCloudSensorEntityDescription := [
  (* Temperature and Humidity *)
  Description "exhaustAirTemp" "Exhaust air temperature" true
    (fun c => v ← state_value c "exhaustAirTemp"; n ← builtins.int v; builtins.truediv n 10);
  Description "exhaustAirHumidity" "Exhaust air humidity" true
    (fun c => v ← state_value c "exhaustAirHumidity"; n ← builtins.int v; mret (VInt n));
  Description "extractAirTemp" "Extract air temperature" true
    (fun c => v ← state_value c "extractAirTemp"; n ← builtins.int v; builtins.truediv n 10);
  Description "extractAirHumidity" "Extract air humidity" true
    (fun c => v ← state_value c "extractAirHumidity"; n ← builtins.int v; mret (VInt n));
  Description "systemOutdoorTemp" "Outdoor air temperature" true
    (fun c => v ← state_value c "systemOutdoorTemp"; n ← builtins.int v; builtins.truediv n 10);
  Description "systemOutdoorHumidity" "Outdoor air humidity" true
    (fun c => v ← state_value c "systemOutdoorHumidity"; n ← builtins.int v; mret (VInt n));
  Description "systemSupplyTemp" "Supply air temperature" true
    (fun c => v ← state_value c "systemSupplyTemp"; n ← builtins.int v; builtins.truediv n 10);
  Description "systemSupplyHumidity" "Supply air humidity" true
    (fun c => v ← state_value c "systemSupplyHumidity"; n ← builtins.int v; mret (VInt n));
  (* Fans *)
  Description "exhaustSpeed" "Exhaust fan speed" true
    (fun c => v ← state_value c "exhaustSpeed"; n ← builtins.int v; mret (VInt n));
  Description "systemSupplySpeed" "Supply fan speed" true
    (fun c => v ← state_value c "systemSupplySpeed"; n ← builtins.int v; mret (VInt n));
  Description "exhaustDuty" "Exhaust fan duty" true
    (fun c => v ← state_value c "exhaustDuty"; n ← builtins.int v; mret (VInt n));
  Description "systemSupplyDuty" "Supply fan duty" true
    (fun c => v ← state_value c "systemSupplyDuty"; n ← builtins.int v; mret (VInt n));
  Description "exhaustFanAirFlow" "Exhaust fan airflow" true
    (fun c => v ← state_value c "exhaustFanAirFlow"; n ← builtins.int v; mret (VInt n));
  Description "supplyFanAirFlow" "Supply fan airflow" true
    (fun c => v ← state_value c "supplyFanAirFlow"; n ← builtins.int v; mret (VInt n));
  (* Power Consumption *)
  Description "currentVentilationPower" "Power usage" true
    (fun c => v ← state_value c "currentVentilationPower"; n ← builtins.int v; mret (VInt n));
  (* Analog Input *)
  Description "analogInput1" "Analog Input 1" false
    (fun c => state_value c "analogInput1");
  Description "analogInput2" "Analog Input 2" false
    (fun c => state_value c "analogInput2");
  Description "analogInput3" "Analog Input 3" false
    (fun c => state_value c "analogInput3");
  Description "analogInput4" "Analog Input 4" false
    (fun c => state_value c "analogInput4");
  (* Bypass *)
  Description "bypassDuty" "Bypass State" true
    (fun c => state_value c "bypassDuty");
  Description "bypassMode" "Bypass Mode" true
    (fun c => state_value c "bypassMode");
  (* ventilationMode *)
  Description "ventilationMode" "Ventilation Mode" true
    (fun c => state_value c "ventilationMode");
  Description "ventilationPreset" "Ventilation Preset" true
    (fun c => state_value c "ventilationPreset");
  (* Other *)
  Description "remainingFilterDuration" "Days to replace filter" true
    (fun c => v ← state_value c "remainingFilterDuration"; n ← builtins.int v; mret (VInt n))
].

Record ZehnderCloudSensor : Type := {
  coordinator : coordinator.ZehnderCloudUpdateCoordinator;
  entity_description : ZehnderCloudSensorEntityDescription
}.

Definition __init__ (c : coordinator.ZehnderCloudUpdateCoordinator) (description : ZehnderCloudSensorEntityDescription) : ZehnderCloudSensor :=
  {| coordinator := c; entity_description := description |}.

Definition native_value (self : ZehnderCloudSensor) : result PyVal :=
  value_fn (entity_description self) (coordinator self).

(** [async_setup_entry]: one entity per description and coordinator. *)
Definition async_setup_entry (coordinators : list coordinator.ZehnderCloudUpdateCoordinator) : list ZehnderCloudSensor :=
  description ← SENSORS; c ← coordinators; [__init__ c description].

End sensor.

(** ** [binary_sensor.py] *)

Module binary_sensor.

Record ZehnderCloudBinarySensorEntityDescription : Type := Description {
  key : string;
  name : string;
  entity_registry_enabled_default : bool;
  value_fn : coordinator.ZehnderCloudUpdateCoordinator -> result bool
}.

Definition SENSORS : list ZehnderCloudBinarySensorEntityDescription := [
  Description "awayEnabled" "Away mode" true
    (fun c => v ← state_value c "awayEnabled"; mret (builtins.bool v));
  Description "manualMode" "Manual Mode" true
    (fun c => v ← state_value c "manualMode"; mret (builtins.bool v));
  Description "boostTimerEnabled" "Boost Timer Enabled" true
    (fun c => v ← state_value c "boostTimerEnabled"; mret (builtins.bool v));
  Description "coolingSeason" "coolingSeason" false
    (fun c => v ← state_value c "coolingSeason"; mret (builtins.bool v));
  Description "heatingSeason" "heatingSeason" false
    (fun c => v ← state_value c "heatingSeason"; mret (builtins.bool v));
  Description "hoodIsOn" "hoodIsOn" false
    (fun c => v ← state_value c "hoodIsOn"; mret (builtins.bool v));
  Description "hoodPresence" "hoodPresence" false
    (fun c => v ← state_value c "hoodPresence"; mret (builtins.bool v));
  Description "postHeaterPresence" "postHeaterPresence" false
    (fun c => v ← state_value c "postHeaterPresence"; mret (builtins.bool v))
].

Record ZehnderCloudBinarySensor : Type := {
  coordinator : coordinator.ZehnderCloudUpdateCoordinator;
  entity_description : ZehnderCloudBinarySensorEntityDescription
}.

Definition __init__ (c : coordinator.ZehnderCloudUpdateCoordinator) (description : ZehnderCloudBinarySensorEntityDescription) : ZehnderCloudBinarySensor :=
  {| coordinator := c; entity_description := description |}.

Definition is_on (self : ZehnderCloudBinarySensor) : result bool :=
  value_fn (entity_description self) (coordinator self).

Definition async_setup_entry (coordinators : list coordinator.ZehnderCloudUpdateCoordinator) : list ZehnderCloudBinarySensor :=
  description ← SENSORS; c ← coordinators; [__init__ c description].

End binary_sensor.

(** ** [fan.py] *)

Module fan.

(** away is not included in speeds and instead mapped to off *)
Definition SPEED_RANGE : Z * Z := (1, 3).

Record ZehnderCloudFan : Type := { coordinator : coordinator.ZehnderCloudUpdateCoordinator }.

Definition __init__ (c : coordinator.ZehnderCloudUpdateCoordinator) : ZehnderCloudFan :=
  {| coordinator := c |}.

(** Return the current speed percentage. *)
Definition percentage (self : ZehnderCloudFan) : result Z :=
  v ← state_value (coordinator self) "ventilationPreset";
  percentage.ranged_value_to_percentage SPEED_RANGE v.

(** Return the number of speeds the fan supports. *)
Definition speed_count (self : ZehnderCloudFan) : Z :=
  percentage.int_states_in_range SPEED_RANGE.

(** The discrete speed [async_set_percentage] computes. *)
Definition speed_of_percentage (percentage : Z) : Z :=
  builtins.math_ceil (percentage.percentage_to_ranged_value SPEED_RANGE percentage).

(** The patch [async_set_percentage] sends for a speed. *)
Definition preset_patch (speed : Z) : gmap string PyVal :=
  {[ "setVentilationPreset" := VDict {[ "value" := VInt speed ]} ]}.

(** Set fan speed percentage.  (The debug log line is left out.) *)
Definition async_set_percentage (self : ZehnderCloudFan) (percentage : Z) : M unit :=
  let speed := speed_of_percentage percentage in
  let c := coordinator self in
  _ ← emit (EvSetDeviceSettings (coordinator.device_id c) (preset_patch speed));
  _ ← lift (outcome (set_device_settings (coordinator.client c) (coordinator.device_id c) (preset_patch speed)));
  emit EvRequestRefresh.

(** Turn the entity on. *)
Definition async_turn_on (self : ZehnderCloudFan) (percentage : option Z) : M unit :=
  match percentage with
  | None => async_set_percentage self 1 (* Set fan speed to low *)
  | Some p => async_set_percentage self p
  end.

(** Turn the entity off. *)
Definition async_turn_off (self : ZehnderCloudFan) : M unit :=
  async_set_percentage self 0.

End fan.

(** ** [select.py] *)

Module select.

Record ZehnderCloudSelectEntityDescription : Type := Description {
  key : string;
  name : string;
  options : list string;
  command : string -> gmap string PyVal
}.

Definition DESCRIPTORS : list ZehnderCloudSelectEntityDescription := [
  Description "bypassMode" "Bypass mode" ["auto"; "on"; "off"]
    (fun option => {[ "forceBypass" := VDict {[ "seconds" := VInt 60 ]} ]})
].

Record ZehnderCloudSelect : Type := {
  coordinator : coordinator.ZehnderCloudUpdateCoordinator;
  entity_description : ZehnderCloudSelectEntityDescription;
  _attr_options : list string
}.

Definition __init__ (c : coordinator.ZehnderCloudUpdateCoordinator) (description : ZehnderCloudSelectEntityDescription) : ZehnderCloudSelect :=
  {| coordinator := c; entity_description := description;
     _attr_options := options description |}.

Definition current_option (self : ZehnderCloudSelect) : string := "auto".

Definition async_select_option (self : ZehnderCloudSelect) (option : string) : M unit :=
  let c := coordinator self in
  let patch : gmap string PyVal := {[ "forceBypass" := VDict {[ "seconds" := VInt 60 ]} ]} in
  _ ← emit (EvSetDeviceSettings (coordinator.device_id c) patch);
  _ ← lift (outcome (set_device_settings (coordinator.client c) (coordinator.device_id c) patch));
  emit EvRequestRefresh.

Definition async_setup_entry (coordinators : list coordinator.ZehnderCloudUpdateCoordinator) : list ZehnderCloudSelect :=
  description ← DESCRIPTORS; c ← coordinators; [__init__ c description].

End select.

(** ** Vocabulary of the properties *)

(** The settings patches a trace sent to the API client, in order. *)
Fixpoint sent_patches (tr : list Event) : list (gmap string PyVal) :=
  match tr with
  | [] => []
  | EvSetDeviceSettings _ patch :: rest => patch :: sent_patches rest
  | _ :: rest => sent_patches rest
  end.

(** What the coordinator stores after one fetch cycle. *)
Definition after_refresh (self : coordinator.ZehnderCloudUpdateCoordinator) : coordinator.ZehnderCloudUpdateCoordinator :=
  match result_of (coordinator.async_refresh self) with
  | Ok self' => self'
  | Raise _ => self
  end.

(** The state carries a timestamp that is not null. *)
Definition has_timestamp (st : DeviceState.t) : Prop :=
  exists ts, DeviceState.data st !! "timestamp" = Some ts /\ ts <> VNone.

(** The condition a failed cycle surfaces. *)
Definition is_UpdateFailed (ex : PyExc) : bool :=
  match ex with
  | UpdateFailed _ _ => true
  | _ => false
  end.

Definition is_ConfigEntryAuthFailed (ex : PyExc) : bool :=
  match ex with
  | ConfigEntryAuthFailed _ _ => true
  | _ => false
  end.

(** A descriptor of either table, and the value its entity reads. *)
Inductive Descriptor : Type :=
  | OfSensor (d : sensor.ZehnderCloudSensorEntityDescription)
  | OfBinarySensor (d : binary_sensor.ZehnderCloudBinarySensorEntityDescription).

Definition descriptor_key (d : Descriptor) : string :=
  match d with
  | OfSensor d => sensor.key d
  | OfBinarySensor d => binary_sensor.key d
  end.

Definition read (c : coordinator.ZehnderCloudUpdateCoordinator) (d : Descriptor) : result PyVal :=
  match d with
  | OfSensor d => sensor.native_value (sensor.__init__ c d)
  | OfBinarySensor d =>
      b ← binary_sensor.is_on (binary_sensor.__init__ c d); mret (VBool b)
  end.

Definition all_descriptors : list Descriptor :=
  (map OfSensor sensor.SENSORS ++ map OfBinarySensor binary_sensor.SENSORS)%list.

(** The sensor descriptions whose lambda divides by 10. *)
Definition scaled_keys : list string :=
  ["exhaustAirTemp"; "extractAirTemp"; "systemOutdoorTemp"; "systemSupplyTemp"].

Definition sensors_named (n : string) : list sensor.ZehnderCloudSensorEntityDescription :=
  List.filter (fun d => String.eqb (sensor.name d) n) sensor.SENSORS.

(** A mock API client that answers every call at once. *)
Definition mock_api (state : result DeviceState.t) (details : result DeviceDetails.t) : ZehnderCloud :=
  {| get_device_state := fun _ => {| elapsed := 0; outcome := state |};
     get_device_details := fun _ => {| elapsed := 0; outcome := details |};
     set_device_settings := fun _ _ => {| elapsed := 0; outcome := Ok tt |} |}.

(** A coordinator that holds the given state and empty details. *)
Definition holding (state : gmap string PyVal) : coordinator.ZehnderCloudUpdateCoordinator :=
  {| coordinator._client := mock_api (Ok (DeviceState.mk state)) (Ok (DeviceDetails.mk ∅));
     coordinator._device_id := 1;
     coordinator.data := Some (coordinator.Snapshot.mk (DeviceState.mk state) (DeviceDetails.mk ∅));
     coordinator.last_update_success := true;
     coordinator.last_exception := None |}.

(** The scenario of spec 8: the mock API returns this state and these
    details, and the coordinator of device 1 runs its first refresh. *)
Definition scenario_state : gmap string PyVal :=
  {[ "timestamp" := VInt 111; "ventilationPreset" := VInt 2 ]}.

Definition scenario_details : gmap string PyVal :=
  {[ "swVersion" := VStr "R1.4.0" ]}.

Definition scenario : coordinator.ZehnderCloudUpdateCoordinator :=
  after_refresh
    (coordinator.__init__
       (mock_api (Ok (DeviceState.mk scenario_state)) (Ok (DeviceDetails.mk scenario_details))) 1).

(** What the two guarded calls of a fetch cycle yield. *)
Definition state_call (self : coordinator.ZehnderCloudUpdateCoordinator) : result DeviceState.t :=
  async_timeout.timeout 10
    (get_device_state (coordinator.client self) (coordinator.device_id self)).

Definition details_call (self : coordinator.ZehnderCloudUpdateCoordinator) : result DeviceDetails.t :=
  async_timeout.timeout 10
    (get_device_details (coordinator.client self) (coordinator.device_id self)).

(** The exception a cycle raises when a guarded call raised [ex]. *)
Definition surfaced (ex : PyExc) : PyExc :=
  if is_AuthError ex then
    ConfigEntryAuthFailed "Credentials expired for Zehnder Cloud" ex
  else
    UpdateFailed ("Error communicating with API: " +:+ str_exc ex) (Some ex).

(** A client whose two fetch calls take the given times. *)
Definition timed_api (s : Awaitable DeviceState.t) (d : Awaitable DeviceDetails.t) : ZehnderCloud :=
  {| get_device_state := fun _ => s;
     get_device_details := fun _ => d;
     set_device_settings := fun _ _ => {| elapsed := 0; outcome := Ok tt |} |}.

(** A snapshot stored by an earlier, successful cycle. *)
Definition previous_snapshot : coordinator.Snapshot.t :=
  coordinator.Snapshot.mk
    (DeviceState.mk {[ "timestamp" := VInt 100; "ventilationPreset" := VInt 1 ]})
    (DeviceDetails.mk ∅).

(** The coordinator of device 1, holding [previous_snapshot], about to
    run a cycle against [api]. *)
Definition stored (api : ZehnderCloud) : coordinator.ZehnderCloudUpdateCoordinator :=
  {| coordinator._client := api;
     coordinator._device_id := 1;
     coordinator.data := Some previous_snapshot;
     coordinator.last_update_success := true;
     coordinator.last_exception := None |}.

(** A state and details a healthy device reports. *)
Definition healthy_state : DeviceState.t :=
  DeviceState.mk {[ "timestamp" := VInt 111; "ventilationPreset" := VInt 2 ]}.

Definition healthy_details : DeviceDetails.t :=
  DeviceDetails.mk {[ "swVersion" := VStr "R1.4.0" ]}.

Definition sensors_keyed (k : string) : list sensor.ZehnderCloudSensorEntityDescription :=
  List.filter (fun d => String.eqb (sensor.key d) k) sensor.SENSORS.

Definition descriptors_keyed (k : string) : list Descriptor :=
  List.filter (fun d => String.eqb (descriptor_key d) k) all_descriptors.

(** ** Entities of a platform: unique ids and the fan's setup

    Each entity's [__init__] sets
    [_attr_unique_id = f"{coordinator.device_id}_{description.key}"] (the
    fan: [f"{coordinator.device_id}_fan"]).  Neither operand changes after
    construction, so the attribute is given as a function of the entity;
    [pretty] is the decimal numeral [str] gives an [int]. *)

Definition sensor_unique_id (e : sensor.ZehnderCloudSensor) : string :=
  pretty (coordinator.device_id (sensor.coordinator e))
  +:+ "_" +:+ sensor.key (sensor.entity_description e).

Definition binary_sensor_unique_id (e : binary_sensor.ZehnderCloudBinarySensor) : string :=
  pretty (coordinator.device_id (binary_sensor.coordinator e))
  +:+ "_" +:+ binary_sensor.key (binary_sensor.entity_description e).

Definition select_unique_id (e : select.ZehnderCloudSelect) : string :=
  pretty (coordinator.device_id (select.coordinator e))
  +:+ "_" +:+ select.key (select.entity_description e).

Definition fan_unique_id (e : fan.ZehnderCloudFan) : string :=
  pretty (coordinator.device_id (fan.coordinator e)) +:+ "_fan".

(** [fan.async_setup_entry]: one fan per coordinator. *)
Definition fan_async_setup_entry (coordinators : list coordinator.ZehnderCloudUpdateCoordinator) : list fan.ZehnderCloudFan :=
  c ← coordinators; [fan.__init__ c].

(** No character of the string is an underscore. *)
Fixpoint no_underscore (s : string) : Prop :=
  match s with
  | EmptyString => True
  | String c rest => c <> "_"%char /\ no_underscore rest
  end.

(** ** [const.py] *)

Module const.

Definition DOMAIN : string := "zehndercloud".

Definition OAUTH2_CLIENT_ID : string := "76c86940-8437-4819-9449-8b7e2a372a07".

End const.

(** ** The host: what setup, unload, the config flow and the OAuth
    implementation do to Home Assistant

    Calls into the host framework are recorded in order; what a call
    answers is given by an environment record, so that every behaviour of
    the host is covered.  [hass.data] is part of the state and keeps what
    was written to it when a later step raises. *)

Inductive Platform : Type :=
  | SENSOR
  | BINARY_SENSOR
  | FAN
  | SELECT.

Inductive HostEvent : Type :=
  | HostApi (ev : Event)
  | HostRegisterImplementation (auth_code_verifier : option string)
  | HostGetConfigEntryImplementation (entry_id : string)
  | HostGetDevices
  | HostForwardEntrySetups (entry_id : string) (platforms : list Platform)
  | HostUnloadPlatforms (entry_id : string) (platforms : list Platform)
  | HostSetUniqueId (unique_id : string)
  | HostSuperStepUser (user_input : option (gmap string PyVal))
  | HostSuperOauthCreateEntry (data : gmap string PyVal)
  | HostUpdateEntry (entry_id : string) (data : gmap string PyVal)
  | HostReload (entry_id : string)
  | HostSuperTokenRequest (data : gmap string PyVal).

Record World : Type := mkWorld {
  calls : list HostEvent;
  hass_data : gmap string (gmap string (list coordinator.ZehnderCloudUpdateCoordinator))
}.

Record HostIO (A : Type) : Type := mkHostIO { exec : World -> World * result A }.

Arguments mkHostIO {A} exec.
Arguments exec {A} h w.

#[global] Instance HostIO_ret : MRet HostIO := fun A a => mkHostIO (fun w => (w, Ok a)).

#[global] Instance HostIO_bind : MBind HostIO := fun A B f h =>
  mkHostIO (fun w =>
    match exec h w with
    | (w', Ok a) => exec (f a) w'
    | (w', Raise ex) => (w', Raise ex)
    end).

Definition hraise {A} (ex : PyExc) : HostIO A := mkHostIO (fun w => (w, Raise ex)).

Definition hlift {A} (r : result A) : HostIO A := mkHostIO (fun w => (w, r)).

Definition hemit (ev : HostEvent) : HostIO unit :=
  mkHostIO (fun w => (mkWorld (calls w ++ [ev])%list (hass_data w), Ok tt)).

Definition get_hass_data : HostIO (gmap string (gmap string (list coordinator.ZehnderCloudUpdateCoordinator))) :=
  mkHostIO (fun w => (w, Ok (hass_data w))).

Definition set_hass_data (d : gmap string (gmap string (list coordinator.ZehnderCloudUpdateCoordinator))) : HostIO unit :=
  mkHostIO (fun w => (mkWorld (calls w) d, Ok tt)).

(** A coordinator's computation, its API calls recorded among the host's. *)
Definition hlift_api {A} (m : M A) : HostIO A :=
  mkHostIO (fun w =>
    let (tr, r) := run m [] in
    (mkWorld (calls w ++ map HostApi tr)%list (hass_data w), r)).

(** [try: body / except Exception as ex: handler(ex)]. *)
Definition htry_except {A} (body : HostIO A) (handler : PyExc -> HostIO A) : HostIO A :=
  mkHostIO (fun w =>
    match exec body w with
    | (w', Ok a) => (w', Ok a)
    | (w', Raise ex) => exec (handler ex) w'
    end).

Record ConfigEntry : Type := { entry_id : string; entry_data : gmap string PyVal }.

(** ** [oauth_impl.py] *)

Module oauth_impl.

Record ZehnderCloudOauth2Implementation : Type := {
  auth_code_verifier : option string;
  (** what [super()._token_request] answers *)
  super_token_request : gmap string PyVal -> result (gmap string PyVal)
}.

(** Name of the implementation. *)
Definition name (self : ZehnderCloudOauth2Implementation) : string := "Zehnder Cloud".

(** The caller's [data] after
    [if self.auth_code_verifier: data["code_verifier"] = self.auth_code_verifier];
    [None] and the empty string are falsy. *)
Definition with_code_verifier (self : ZehnderCloudOauth2Implementation) (data : gmap string PyVal) : gmap string PyVal :=
  match auth_code_verifier self with
  | Some verifier =>
      if String.eqb verifier EmptyString then data
      else <[ "code_verifier" := VStr verifier ]> data
  | None => data
  end.

(** Make a token request, but include the code_verifier. *)
Definition _token_request (self : ZehnderCloudOauth2Implementation) (data : gmap string PyVal) : HostIO (gmap string PyVal) :=
  let data := with_code_verifier self data in
  _ ← hemit (HostSuperTokenRequest data);
  hlift (super_token_request self data).

End oauth_impl.

(** ** [__init__.py]: setup and unload of a config entry *)

Module zehndercloud.

Definition PLATFORMS : list Platform := [SENSOR; BINARY_SENSOR; FAN].

(** What the host and the cloud answer during setup and unload:
    [async_get_config_entry_implementation], [client.get_devices()], the
    client the coordinators poll, the coordinator's inherited
    [async_config_entry_first_refresh], [async_forward_entry_setups] and
    [async_unload_platforms]. *)
Record Host : Type := {
  implementation : result unit;
  api : ZehnderCloud;
  devices : result (list Z);
  first_refresh : coordinator.ZehnderCloudUpdateCoordinator -> M coordinator.ZehnderCloudUpdateCoordinator;
  forward_entry_setups : result unit;
  unload_platforms : result bool
}.

(** The [for device_id in devices] loop: create a coordinator for every
    device, await its first refresh, append it. *)
Fixpoint setup_coordinators (host : Host) (devices : list Z) (coordinators : list coordinator.ZehnderCloudUpdateCoordinator) : HostIO (list coordinator.ZehnderCloudUpdateCoordinator) :=
  match devices with
  | [] => mret coordinators
  | device_id :: rest =>
      c ← hlift_api (first_refresh host (coordinator.__init__ (api host) device_id));
      setup_coordinators host rest (coordinators ++ [c])%list
  end.

(** Set up Zehnder Cloud from a config entry.  (Building the web session,
    the OAuth session and the client object has no effect of its own.) *)
Definition async_setup_entry (host : Host) (entry : ConfigEntry) : HostIO bool :=
  _ ← hemit (HostRegisterImplementation None);
  _ ← hemit (HostGetConfigEntryImplementation (entry_id entry));
  _ ← hlift (implementation host);
  devices ← htry_except
    (_ ← hemit HostGetDevices; hlift (devices host))
    (fun ex =>
       if is_AuthError ex then
         hraise (ConfigEntryAuthFailed "Credentials expired for Zehnder Cloud" ex)
       else hraise ex);
  coordinators ← setup_coordinators host devices [];
  data ← get_hass_data;
  _ ← set_hass_data
        (<[ const.DOMAIN := <[ entry_id entry := coordinators ]> (default ∅ (data !! const.DOMAIN)) ]> data);
  _ ← hemit (HostForwardEntrySetups (entry_id entry) PLATFORMS);
  _ ← hlift (forward_entry_setups host);
  mret true.

(** Unload a config entry. *)
Definition async_unload_entry (host : Host) (entry : ConfigEntry) : HostIO bool :=
  _ ← hemit (HostUnloadPlatforms (entry_id entry) PLATFORMS);
  unload_ok ← hlift (unload_platforms host);
  _ ← (if unload_ok : bool then
         data ← get_hass_data;
         match data !! const.DOMAIN with
         | None => hraise (KeyError const.DOMAIN)
         | Some entries =>
             match entries !! entry_id entry with
             | None => hraise (KeyError (entry_id entry))
             | Some _ =>
                 set_hass_data (<[ const.DOMAIN := delete (entry_id entry) entries ]> data)
             end
         end
       else mret tt);
  mret unload_ok.

End zehndercloud.

(** ** [config_flow.py] *)

Module config_flow.

Inductive FlowResult : Type :=
  | FlowAbort (reason : string)
  | FlowForm (step_id : string)
  | FlowExternalStep (url : string)
  | FlowCreateEntry (data : gmap string PyVal).

(** What the host answers during a flow: [async_set_unique_id],
    [_async_current_entries], the parent class's [async_step_user] and
    [async_oauth_create_entry], and [async_reload]. *)
Record FlowHost : Type := {
  set_unique_id : result (option ConfigEntry);
  current_entries : list ConfigEntry;
  super_async_step_user : option (gmap string PyVal) -> result FlowResult;
  super_async_oauth_create_entry : gmap string PyVal -> result FlowResult;
  reload : result bool
}.

(** [code_verifier] and [code_challenge] are the pair
    [pkce.generate_pkce_pair()] returned in [__init__]. *)
Record ZehnderCloudControlFlowHandler : Type := {
  code_verifier : string;
  code_challenge : string;
  host : FlowHost
}.

(** Handle a flow initialized by the user. *)
Definition async_step_user (self : ZehnderCloudControlFlowHandler) (user_input : option (gmap string PyVal)) : HostIO FlowResult :=
  _ ← hemit (HostSetUniqueId const.DOMAIN);
  _ ← hlift (set_unique_id (host self));
  match current_entries (host self) with
  | _ :: _ => mret (FlowAbort "single_instance_allowed")
  | [] =>
      _ ← hemit (HostRegisterImplementation (Some (code_verifier self)));
      _ ← hemit (HostSuperStepUser user_input);
      hlift (super_async_step_user (host self) user_input)
  end.

(** Dialog that informs the user that reauth is required. *)
Definition async_step_reauth_confirm (self : ZehnderCloudControlFlowHandler) (user_input : option (gmap string PyVal)) : HostIO FlowResult :=
  match user_input with
  | None => mret (FlowForm "reauth_confirm")
  | Some _ => async_step_user self None
  end.

(** Perform reauth upon an API authentication error. *)
Definition async_step_reauth (self : ZehnderCloudControlFlowHandler) (entry_data : gmap string PyVal) : HostIO FlowResult :=
  async_step_reauth_confirm self None.

(** Create an oauth config entry or update existing entry for reauth. *)
Definition async_oauth_create_entry (self : ZehnderCloudControlFlowHandler) (data : gmap string PyVal) : HostIO FlowResult :=
  _ ← hemit (HostSetUniqueId const.DOMAIN);
  existing_entry ← hlift (set_unique_id (host self));
  match existing_entry with
  | Some existing =>
      _ ← hemit (HostUpdateEntry (entry_id existing) data);
      _ ← hemit (HostReload (entry_id existing));
      _ ← hlift (reload (host self));
      mret (FlowAbort "reauth_successful")
  | None =>
      _ ← hemit (HostSuperOauthCreateEntry data);
      hlift (super_async_oauth_create_entry (host self) data)
  end.

(** Extra data that needs to be appended to the authorize url. *)
Definition extra_authorize_data (self : ZehnderCloudControlFlowHandler) : gmap string PyVal :=
  {[ "scope" := VStr (const.OAUTH2_CLIENT_ID +:+ " offline_access");
     "code_challenge" := VStr (code_challenge self);
     "code_challenge_method" := VStr "S256" ]}.

End config_flow.

(** An empty world, and the outcome of a host computation started in a
    given world. *)
Definition fresh_world : World := mkWorld [] ∅.

Definition hresult {A} (h : HostIO A) (w : World) : result A := snd (exec h w).

Definition hcalls {A} (h : HostIO A) (w : World) : list HostEvent := calls (fst (exec h w)).

Definition hdata {A} (h : HostIO A) (w : World) : gmap string (gmap string (list coordinator.ZehnderCloudUpdateCoordinator)) :=
  hass_data (fst (exec h w)).

(** The sensor descriptions whose lambda returns the looked-up value as
    it is. *)
Definition passthrough_keys : list string :=
  ["analogInput1"; "analogInput2"; "analogInput3"; "analogInput4";
   "bypassDuty"; "bypassMode"; "ventilationMode"; "ventilationPreset"].

(** The API calls of the first refreshes of the given devices, in order. *)
Definition refresh_calls (host : zehndercloud.Host) (devices : list Z) : list HostEvent :=
  concat (map (fun device_id =>
                 map HostApi
                   (trace_of (zehndercloud.first_refresh host
                                (coordinator.__init__ (zehndercloud.api host) device_id))))
              devices).

(** The first refresh of each device returned the coordinator beside it. *)
Definition first_refreshes_return (host : zehndercloud.Host) (devices : list Z) (coordinators : list coordinator.ZehnderCloudUpdateCoordinator) : Prop :=
  Forall2 (fun device_id c =>
             result_of (zehndercloud.first_refresh host
                          (coordinator.__init__ (zehndercloud.api host) device_id)) = Ok c)
          devices coordinators.

(** Modelled from the spec: the host's [async_config_entry_first_refresh],
    which is not under src/.  Spec 4.1 and 7: the first fetch must succeed
    before the device is initialised; an authentication failure surfaces as
    such, any other failure as "not ready". *)
Definition reference_first_refresh (self : coordinator.ZehnderCloudUpdateCoordinator) : M coordinator.ZehnderCloudUpdateCoordinator :=
  self' ← coordinator.async_refresh self;
  match coordinator.last_exception self' with
  | None => mret self'
  | Some ex =>
      if is_ConfigEntryAuthFailed ex then raise ex
      else raise (OtherException "ConfigEntryNotReady" (str_exc ex))
  end.

(** A host whose calls all succeed, for the given client and devices. *)
Definition reference_host (api : ZehnderCloud) (devices : result (list Z)) : zehndercloud.Host :=
  {| zehndercloud.implementation := Ok tt;
     zehndercloud.api := api;
     zehndercloud.devices := devices;
     zehndercloud.first_refresh := reference_first_refresh;
     zehndercloud.forward_entry_setups := Ok tt;
     zehndercloud.unload_platforms := Ok true |}.

Definition sample_entry : ConfigEntry :=
  {| entry_id := "entry-1"; entry_data := ∅ |}.

(** A flow whose host calls succeed, with the given existing entries. *)
Definition sample_flow (entries : list ConfigEntry) (existing : option ConfigEntry) : config_flow.ZehnderCloudControlFlowHandler :=
  {| config_flow.code_verifier := "verifier-abc";
     config_flow.code_challenge := "challenge-xyz";
     config_flow.host :=
       {| config_flow.set_unique_id := Ok existing;
          config_flow.current_entries := entries;
          config_flow.super_async_step_user := fun _ =>
            Ok (config_flow.FlowExternalStep "https://zehndergroupauth.b2clogin.com");
          config_flow.super_async_oauth_create_entry := fun data =>
            Ok (config_flow.FlowCreateEntry data);
          config_flow.reload := Ok true |} |}.

(** How a description's lambda treats the looked-up value: returned as it
    is, cast with [bool()], converted with [int()], or converted with
    [int()] and divided by 10. *)
Inductive Conversion : Type :=
  | PassThrough
  | BoolCast
  | IntCast
  | IntScaled.

Definition same_conversion (a b : Conversion) : bool :=
  match a, b with
  | PassThrough, PassThrough | BoolCast, BoolCast
  | IntCast, IntCast | IntScaled, IntScaled => true
  | _, _ => false
  end.

Definition conversion (d : Descriptor) : Conversion :=
  match d with
  | OfBinarySensor _ => BoolCast
  | OfSensor s =>
      if existsb (String.eqb (sensor.key s)) passthrough_keys then PassThrough
      else if existsb (String.eqb (sensor.key s)) scaled_keys then IntScaled
      else IntCast
  end.

(** The stored values a description's conversion accepts. *)
Definition accepts (d : Descriptor) (v : PyVal) : Prop :=
  match conversion d with
  | PassThrough | BoolCast => True
  | IntCast => is_Ok (builtins.int v) = true
  | IntScaled =>
      exists n, builtins.int v = Ok n /\ is_Ok (builtins.truediv n 10) = true
  end.

(** A descriptor reads its own key and nothing else: a failed lookup of
    that key is its result, and a present value is extracted exactly when
    the conversion accepts it. *)
Definition reads_as_converted (d : Descriptor) : Prop :=
  forall c : coordinator.ZehnderCloudUpdateCoordinator,
    (forall ex, state_value c (descriptor_key d) = Raise ex -> read c d = Raise ex)
    /\ (forall v, state_value c (descriptor_key d) = Ok v ->
                  (is_Ok (read c d) = true <-> accepts d v)).

(** * Properties *)

(** ** Builtins on sample inputs *)

Example int_of_padded_string : builtins.int (VStr "  -12_3 ") = Ok (-123).
Proof. reflexivity. Qed.

Example int_of_property_string : builtins.int (VStr "129") = Ok 129.
Proof. reflexivity. Qed.

Example int_of_doubled_underscore :
  builtins.int (VStr "1__2") = Raise (ValueError "invalid literal for int() with base 10").
Proof. reflexivity. Qed.

Example int_of_float_truncates : builtins.int (VFloat (-26.7)) = Ok (-26).
Proof. reflexivity. Qed.

Example int_of_bool : builtins.int (VBool true) = Ok 1.
Proof. reflexivity. Qed.

Example speeds_of_sample_percentages :
  map fan.speed_of_percentage [0; 1; 33; 34; 50; 66; 67; 100] = [0; 1; 1; 2; 2; 2; 3; 3].
Proof. reflexivity. Qed.

Example percentages_of_speeds :
  map (fun s => percentage.ranged_value_to_percentage fan.SPEED_RANGE (VInt s)) [1; 2; 3]
  = [Ok 33; Ok 66; Ok 100].
Proof. reflexivity. Qed.

Example int_of_unit_separator :
  builtins.int (VStr (String (ascii_of_nat 31) "12"))
  = Raise (ValueError "invalid literal for int() with base 10").
Proof. reflexivity. Qed.

Example truediv_264_by_10 :
  builtins.truediv 264 10 = Ok (VFloat (7430939385161318 # 281474976710656)).
Proof. reflexivity. Qed.

Example truediv_tie_to_even :
  builtins.truediv (10 * 2 ^ 53 + 10) 10 = Ok (VFloat (inject_Z (2 ^ 53))).
Proof. vm_compute. reflexivity. Qed.

Example truediv_overflow :
  builtins.truediv (10 ^ 310) 10
  = Raise (OtherException "OverflowError" "integer division result too large for a float").
Proof. vm_compute. reflexivity. Qed.

(** ** True division by 10 *)

Lemma round_half_even_near (num den : Z) :
  0 < den -> Z.abs (2 * (den * builtins.round_half_even num den - num)) <= den.
Proof.
  intros Hden. unfold builtins.round_half_even.
  pose proof (Z.div_mod num den ltac:(lia)) as Hdm.
  pose proof (Z.mod_pos_bound num den Hden) as Hb.
  destruct (2 * (num mod den) <? den) eqn:E1; [lia|].
  destruct (den <? 2 * (num mod den)) eqn:E2; [lia|].
  destruct (Z.even (num / den)); lia.
Qed.

(** For a raw value of magnitude below [2 ^ 53] the tenth is rounded with a
    unit in the last place of [1 / 8] at most. *)
Lemma binary64_div_10 (n : Z) :
  Z.abs n < 2 ^ 53 ->
  exists q m P,
    builtins.binary64_div n 10 = Some q
    /\ (q == Qmake m P)%Q
    /\ 8 <= Z.pos P
    /\ Z.abs (2 * (10 * m - n * Z.pos P)) <= 10.
Proof.
  intros Hn. unfold builtins.binary64_div.
  destruct (n =? 0) eqn:E0.
  - apply Z.eqb_eq in E0 as ->. exists 0%Q, 0, 8%positive. cbn. repeat split; lia.
  - apply Z.eqb_neq in E0.
    assert (Z.log2 (Z.abs n) < 53) as Hlog by (apply Z.log2_lt_pow2; lia).
    change (Z.log2 10) with 3.
    set (e0 := Z.log2 (Z.abs n) - 3).
    match goal with |- context [Z.max (?x - 52) _] => set (e := x) end.
    assert (e <= 49) as He.
    { subst e. match goal with |- (if ?b then _ else _) <= _ => destruct b end; lia. }
    set (u := Z.max (e - 52) (-1074)).
    assert (-1074 <= u <= -3) as Hu by (subst u; lia).
    destruct (0 <=? u) eqn:Eu; [lia|].
    assert (8 <= 2 ^ (- u)) as HP.
    { change 8 with (2 ^ 3). apply Z.pow_le_mono_r; lia. }
    eexists _, (builtins.round_half_even (n * 2 ^ (- u)) 10), (Z.to_pos (2 ^ (- u))).
    rewrite Z2Pos.id by lia.
    split; [done|]. split; [done|]. split; [done|].
    apply round_half_even_near. lia.
Qed.

Lemma truediv_by_10 (n : Z) :
  builtins.truediv n 10
  = match builtins.binary64_div n 10 with
    | Some q => Ok (VFloat q)
    | None =>
        Raise (OtherException "OverflowError" "integer division result too large for a float")
    end.
Proof. reflexivity. Qed.

Lemma truediv_10 (n : Z) :
  Z.abs n < 2 ^ 53 ->
  exists q,
    builtins.truediv n 10 = Ok (VFloat q)
    /\ ((n # 10) - (1 # 16) <= q <= (n # 10) + (1 # 16))%Q
    /\ ((q == inject_Z (n / 10))%Q <-> n mod 10 = 0).
Proof.
  intros Hn. destruct (binary64_div_10 n Hn) as (q & m & P & Hdiv & Hq & HP & Hnear).
  exists q. rewrite truediv_by_10, Hdiv.
  split; [done|]. rewrite Hq.
  pose proof (Z.div_mod n 10 ltac:(lia)) as Hdm.
  pose proof (Z.mod_pos_bound n 10 ltac:(lia)) as Hb.
  split.
  - unfold Qle, Qminus, Qplus, Qopp. cbn. nia.
  - unfold Qeq. cbn. split; intros H; nia.
Qed.

(** ** The effect monad *)

Lemma run_bind {A B} (m : M A) (f : A -> M B) tr :
  run (m ≫= f) tr =
    match run m tr with
    | (tr', Ok a) => run (f a) tr'
    | (tr', Raise ex) => (tr', Raise ex)
    end.
Proof. reflexivity. Qed.

Lemma run_try_except {A} (body : M A) (handler : PyExc -> M A) tr :
  run (try_except body handler) tr =
    match run body tr with
    | (tr', Ok a) => (tr', Ok a)
    | (tr', Raise ex) => run (handler ex) tr'
    end.
Proof. reflexivity. Qed.

(** ** The fetch cycle *)

Section FetchCycle.

Import coordinator.

Variable self : ZehnderCloudUpdateCoordinator.

Lemma run_fetch tr :
  run (fetch self) tr =
    match state_call self with
    | Raise ex => ((tr ++ [EvGetDeviceState (device_id self)])%list, Raise ex)
    | Ok st =>
        ((tr ++ [EvGetDeviceState (device_id self); EvGetDeviceDetails (device_id self)])%list,
         match details_call self with
         | Raise ex => Raise ex
         | Ok dt => Ok (st, dt)
         end)
    end.
Proof.
  unfold state_call, details_call, fetch, client, device_id. cbn.
  destruct (async_timeout.timeout 10 (get_device_state _ _)) as [st|ex]; cbn; [|done].
  rewrite <- app_assoc. cbn.
  by destruct (async_timeout.timeout 10 (get_device_details _ _)).
Qed.

Lemma update_data_result :
  result_of (_async_update_data self) =
    match state_call self with
    | Raise ex => Raise (surfaced ex)
    | Ok st =>
        match details_call self with
        | Raise ex => Raise (surfaced ex)
        | Ok dt =>
            if builtins.is_None (builtins.dict_get (DeviceState.data st) "timestamp")
            then Raise (UpdateFailed "Update from Zehnder Cloud did not contain data" None)
            else Ok (Snapshot.mk st dt)
        end
    end.
Proof.
  unfold result_of, _async_update_data.
  rewrite run_bind, run_try_except, run_fetch.
  unfold surfaced, except_clauses.
  destruct (state_call self) as [st|ex]; cbn.
  - destruct (details_call self) as [dt|ex]; cbn.
    + by destruct (builtins.is_None _).
    + by destruct (is_AuthError ex).
  - by destruct (is_AuthError ex).
Qed.

Lemma update_data_trace :
  trace_of (_async_update_data self) =
    match state_call self with
    | Raise _ => [EvGetDeviceState (device_id self)]
    | Ok _ => [EvGetDeviceState (device_id self); EvGetDeviceDetails (device_id self)]
    end.
Proof.
  unfold trace_of, _async_update_data.
  rewrite run_bind, run_try_except, run_fetch.
  unfold except_clauses.
  destruct (state_call self) as [st|ex]; cbn.
  - destruct (details_call self) as [dt|ex]; cbn.
    + by destruct (builtins.is_None _).
    + by destruct (is_AuthError ex).
  - by destruct (is_AuthError ex).
Qed.

Lemma after_refresh_snapshot :
  get_snapshot (after_refresh self) =
    match result_of (_async_update_data self) with
    | Ok snapshot => Some snapshot
    | Raise _ => get_snapshot self
    end.
Proof.
  unfold after_refresh, result_of, async_refresh, get_snapshot. cbn [run].
  by destruct (run (_async_update_data self) []) as [tr [snapshot|ex]].
Qed.

Lemma after_refresh_exception :
  last_exception (after_refresh self) =
    match result_of (_async_update_data self) with
    | Ok _ => None
    | Raise ex => Some ex
    end.
Proof.
  unfold after_refresh, result_of, async_refresh. cbn [run].
  by destruct (run (_async_update_data self) []) as [tr [snapshot|ex]].
Qed.

End FetchCycle.

Lemma timeout_within {A} (delay : Q) (call : Awaitable A) :
  (elapsed call <= delay)%Q -> async_timeout.timeout delay call = outcome call.
Proof.
  intros H. unfold async_timeout.timeout.
  by apply Qle_bool_iff in H as ->.
Qed.

Lemma timeout_exceeded {A} (delay : Q) (call : Awaitable A) :
  (delay < elapsed call)%Q -> async_timeout.timeout delay call = Raise TimeoutError.
Proof.
  intros H. unfold async_timeout.timeout.
  destruct (Qle_bool (elapsed call) delay) eqn:E; [|done].
  apply Qle_bool_iff in E. by apply Qlt_not_le in H.
Qed.

Lemma surfaced_not_ok_kind ex :
  is_UpdateFailed (surfaced ex) = negb (is_AuthError ex)
  /\ is_ConfigEntryAuthFailed (surfaced ex) = is_AuthError ex.
Proof. unfold surfaced. by destruct (is_AuthError ex). Qed.

Lemma is_None_dict_get (d : gmap string PyVal) (key : string) :
  builtins.is_None (builtins.dict_get d key) = true
  <-> d !! key = None \/ d !! key = Some VNone.
Proof.
  unfold builtins.dict_get.
  destruct (d !! key) as [v|]; cbn; [|by split; [left|]].
  destruct v; cbn; (split; [intros E | intros [E|E]]); try done; by right.
Qed.

(** ** C1: the timestamp check *)

Lemma update_data_ok_timestamp (self : coordinator.ZehnderCloudUpdateCoordinator) snapshot :
  result_of (coordinator._async_update_data self) = Ok snapshot ->
  has_timestamp (coordinator.Snapshot.state snapshot).
Proof.
  intros Hok. rewrite update_data_result in Hok.
  destruct (state_call self) as [st|ex]; [|done].
  destruct (details_call self) as [dt|ex]; [|done].
  destruct (builtins.is_None _) eqn:Hts; [done|].
  injection Hok as <-. cbn. unfold has_timestamp.
  unfold builtins.dict_get in Hts.
  destruct (DeviceState.data st !! "timestamp") as [ts|]; [|done].
  exists ts. split; [done|]. by intros ->.
Qed.

(** When both calls return and the state has no timestamp, the cycle
    raises [UpdateFailed] with the fixed message and no cause. *)
Lemma missing_timestamp_fixed_message (self : coordinator.ZehnderCloudUpdateCoordinator) st dt :
  state_call self = Ok st ->
  details_call self = Ok dt ->
  builtins.is_None (builtins.dict_get (DeviceState.data st) "timestamp") = true ->
  result_of (coordinator._async_update_data self)
  = Raise (UpdateFailed "Update from Zehnder Cloud did not contain data" None).
Proof.
  intros Hs Hd Hts. by rewrite update_data_result, Hs, Hd, Hts.
Qed.

(** C1, counterexample.  A state without "timestamp" does not always
    end the cycle in a transient update failure.  Here the state call
    returns a state without timestamp
    and the details call raises [AuthError]: the [except AuthError] clause
    runs before the timestamp check is reached, and the cycle raises
    [ConfigEntryAuthFailed], not [UpdateFailed]. *)
Lemma C1_counterexample :
  let self := stored (mock_api (Ok (DeviceState.mk ∅)) (Raise (AuthError "token expired"))) in
  outcome (get_device_state (coordinator.client self) (coordinator.device_id self))
    = Ok (DeviceState.mk ∅)
  /\ DeviceState.data (DeviceState.mk ∅) !! "timestamp" = None
  /\ result_of (coordinator._async_update_data self)
      = Raise (ConfigEntryAuthFailed "Credentials expired for Zehnder Cloud"
                 (AuthError "token expired"))
  /\ ~ (exists msg cause,
         result_of (coordinator._async_update_data self) = Raise (UpdateFailed msg cause)).
Proof.
  cbn zeta. repeat split.
  intros (msg & cause & H). vm_compute in H. discriminate H.
Qed.

(** C1, amended.  For every fetch cycle, if the state mapping the API
    client answers with has no "timestamp" key (or its value is null), the
    cycle fails and the stored snapshot is left unchanged.  When the state
    call returned and the details call raised [AuthError], the failure is
    [ConfigEntryAuthFailed] with that error as its cause; in every other case
    it is a transient update failure ([UpdateFailed]).  After any successful
    fetch cycle the stored snapshot is the fetched one and its state contains
    a non-null "timestamp". *)
Theorem C1_missing_timestamp_never_stored (self : coordinator.ZehnderCloudUpdateCoordinator) :
  (forall st,
     outcome (get_device_state (coordinator.client self) (coordinator.device_id self)) = Ok st ->
     DeviceState.data st !! "timestamp" = None
       \/ DeviceState.data st !! "timestamp" = Some VNone ->
     (exists ex,
        result_of (coordinator._async_update_data self) = Raise ex
        /\ (is_UpdateFailed ex = true
            \/ exists m, details_call self = Raise (AuthError m)
                 /\ ex = ConfigEntryAuthFailed "Credentials expired for Zehnder Cloud" (AuthError m)))
     /\ (forall m,
           state_call self = Ok st ->
           details_call self = Raise (AuthError m) ->
           result_of (coordinator._async_update_data self)
           = Raise (ConfigEntryAuthFailed "Credentials expired for Zehnder Cloud" (AuthError m)))
     /\ (state_call self <> Ok st \/ (forall m, details_call self <> Raise (AuthError m)) ->
         exists msg cause,
           result_of (coordinator._async_update_data self) = Raise (UpdateFailed msg cause))
     /\ coordinator.get_snapshot (after_refresh self) = coordinator.get_snapshot self)
  /\ (forall snapshot,
        result_of (coordinator._async_update_data self) = Ok snapshot ->
        coordinator.get_snapshot (after_refresh self) = Some snapshot
        /\ has_timestamp (coordinator.Snapshot.state snapshot)).
Proof.
  split.
  - intros st Hst Hts. apply is_None_dict_get in Hts.
    rewrite after_refresh_snapshot, update_data_result.
    assert (state_call self = Ok st \/ state_call self = Raise TimeoutError) as [Hs|Hs].
    { unfold state_call, async_timeout.timeout. rewrite Hst.
      destruct (Qle_bool _ _); [by left | by right]. }
    + rewrite Hs. destruct (details_call self) as [dt|ex] eqn:Hd.
      * rewrite Hts. split; [|split; [|split]]; [| done | | done].
        -- eexists. split; [done|]. by left.
        -- intros _. by eexists _, _.
      * split; [|split; [|split]]; [| | | done].
        -- eexists. split; [done|].
           unfold surfaced. destruct ex; cbn; try (by left).
           right. by eexists.
        -- by intros m _ [= ->].
        -- intros [Hne | Hne]; [done|].
           unfold surfaced. destruct ex; cbn; try (by eexists _, _).
           by destruct (Hne msg).
    + rewrite Hs. split; [|split; [|split]]; [| done | | done].
      * eexists. split; [done|]. by left.
      * intros _. by eexists _, _.
  - intros snapshot Hok. rewrite after_refresh_snapshot, Hok. split; [done|].
    by apply (update_data_ok_timestamp self).
Qed.

(** C1, instance: a state without timestamp and a details call that
    raises [AuthError]; the cycle raises [ConfigEntryAuthFailed] and the
    previous snapshot stays. *)
Lemma C1_missing_timestamp_never_stored_witness :
  let self := stored (mock_api (Ok (DeviceState.mk ∅)) (Raise (AuthError "expired"))) in
  result_of (coordinator._async_update_data self)
    = Raise (ConfigEntryAuthFailed "Credentials expired for Zehnder Cloud" (AuthError "expired"))
  /\ coordinator.get_snapshot (after_refresh self) = Some previous_snapshot.
Proof.
  intros self.
  destruct (proj1 (C1_missing_timestamp_never_stored self) (DeviceState.mk ∅))
    as (_ & Hauth & _ & Hkept).
  - reflexivity.
  - left. reflexivity.
  - split; [|exact Hkept]. apply Hauth; reflexivity.
Defined.

(** Over any sequence of cycles the stored snapshot, once present, has a
    non-null timestamp. *)
Lemma poll_snapshot_has_timestamp (apis : list ZehnderCloud) :
  forall self : coordinator.ZehnderCloudUpdateCoordinator,
    (forall s, coordinator.get_snapshot self = Some s ->
               has_timestamp (coordinator.Snapshot.state s)) ->
    forall s, coordinator.get_snapshot (coordinator.poll self apis) = Some s ->
              has_timestamp (coordinator.Snapshot.state s).
Proof.
  induction apis as [|api rest IH]; intros self Hself; [done|].
  cbn [coordinator.poll].
  pose proof (after_refresh_snapshot (coordinator.with_client self api)) as Hsnap.
  unfold after_refresh in Hsnap.
  destruct (result_of (coordinator.async_refresh _)) as [self'|ex] eqn:Hr.
  - apply IH. intros s Hs. rewrite Hsnap in Hs.
    destruct (result_of (coordinator._async_update_data _)) as [snapshot|ex] eqn:Hu.
    + injection Hs as <-. by apply (update_data_ok_timestamp _ _ Hu).
    + by apply Hself.
  - done.
Qed.

(** ** C2: failure classification *)

(** C2.  When either guarded call raises [ex] (the state call, or the
    details call after the state call returned), the cycle raises
    [ConfigEntryAuthFailed] if [ex] is an [AuthError] and otherwise
    [UpdateFailed] with [ex] as its cause and [str(ex)] in its message; the
    stored snapshot is retained. *)
Theorem C2_failure_classification (self : coordinator.ZehnderCloudUpdateCoordinator) (ex : PyExc) :
  state_call self = Raise ex
    \/ (exists st, state_call self = Ok st /\ details_call self = Raise ex) ->
  result_of (coordinator._async_update_data self)
    = Raise (if is_AuthError ex
             then ConfigEntryAuthFailed "Credentials expired for Zehnder Cloud" ex
             else UpdateFailed ("Error communicating with API: " +:+ str_exc ex) (Some ex))
  /\ coordinator.get_snapshot (after_refresh self) = coordinator.get_snapshot self.
Proof.
  intros H. rewrite after_refresh_snapshot, update_data_result.
  destruct H as [-> | (st & -> & ->)]; by split.
Qed.

(** C2, instance: [AuthError] from the details call, and a connection
    error from the state call. *)
Lemma C2_failure_classification_witness :
  (result_of (coordinator._async_update_data
                (stored (mock_api (Ok healthy_state) (Raise (AuthError "token expired")))))
     = Raise (ConfigEntryAuthFailed "Credentials expired for Zehnder Cloud"
                (AuthError "token expired"))
   /\ coordinator.get_snapshot
        (after_refresh (stored (mock_api (Ok healthy_state) (Raise (AuthError "token expired")))))
      = Some previous_snapshot)
  /\ (result_of (coordinator._async_update_data
                   (stored (mock_api (Raise (OtherException "ClientConnectionError" "reset"))
                                     (Ok healthy_details))))
      = Raise (UpdateFailed "Error communicating with API: reset"
                 (Some (OtherException "ClientConnectionError" "reset")))
      /\ coordinator.get_snapshot
           (after_refresh (stored (mock_api (Raise (OtherException "ClientConnectionError" "reset"))
                                            (Ok healthy_details))))
         = Some previous_snapshot).
Proof.
  split.
  - apply (C2_failure_classification
             (stored (mock_api (Ok healthy_state) (Raise (AuthError "token expired"))))
             (AuthError "token expired")).
    right. exists healthy_state. split; reflexivity.
  - apply (C2_failure_classification
             (stored (mock_api (Raise (OtherException "ClientConnectionError" "reset"))
                               (Ok healthy_details)))
             (OtherException "ClientConnectionError" "reset")).
    left. reflexivity.
Defined.

(** ** C3: order of the calls and their time bounds *)

(** C3.  A cycle calls the client for the state first; it calls for the
    details exactly when the state call returned within its 10 seconds.
    Each call has its own bound: a state call over 10 seconds, or a details
    call over 10 seconds after a state call that returned in time, makes the
    cycle raise [UpdateFailed] caused by the timeout; two calls that each
    stay within 10 seconds both deliver, whatever their sum, and the cycle
    returns their snapshot. *)
Theorem C3_state_then_details_each_bounded (self : coordinator.ZehnderCloudUpdateCoordinator) :
  let id := coordinator.device_id self in
  let s := get_device_state (coordinator.client self) id in
  let d := get_device_details (coordinator.client self) id in
  let calls := trace_of (coordinator._async_update_data self) in
  let timed_out : result coordinator.Snapshot.t :=
    Raise (UpdateFailed "Error communicating with API: " (Some TimeoutError)) in
  (calls = [EvGetDeviceState id] \/ calls = [EvGetDeviceState id; EvGetDeviceDetails id])
  /\ (In (EvGetDeviceDetails id) calls <-> (elapsed s <= 10)%Q /\ is_Ok (outcome s) = true)
  /\ ((10 < elapsed s)%Q ->
      result_of (coordinator._async_update_data self) = timed_out)
  /\ ((elapsed s <= 10)%Q -> is_Ok (outcome s) = true -> (10 < elapsed d)%Q ->
      result_of (coordinator._async_update_data self) = timed_out)
  /\ (forall st dt,
        (elapsed s <= 10)%Q -> outcome s = Ok st ->
        (elapsed d <= 10)%Q -> outcome d = Ok dt ->
        result_of (coordinator.fetch self) = Ok (st, dt))
  /\ (forall st dt,
        (elapsed s <= 10)%Q -> outcome s = Ok st ->
        (elapsed d <= 10)%Q -> outcome d = Ok dt ->
        has_timestamp st ->
        result_of (coordinator._async_update_data self)
        = Ok (coordinator.Snapshot.mk st dt))
  /\ (forall st ex,
        (elapsed s <= 10)%Q -> outcome s = Ok st ->
        (elapsed d <= 10)%Q -> outcome d = Raise ex ->
        result_of (coordinator._async_update_data self) = Raise (surfaced ex)).
Proof.
  intros id s d calls timed_out. subst calls.
  rewrite update_data_trace, update_data_result.
  unfold result_of. rewrite run_fetch. cbn [snd].
  unfold state_call, details_call. fold id. fold s. fold d.
  split; [|split; [|split; [|split; [|split; [|split]]]]].
  - destruct (async_timeout.timeout 10 s); [by right | by left].
  - split.
    + intros Hin. split.
      * destruct (Qle_bool (elapsed s) 10) eqn:E.
        -- by apply Qle_bool_iff.
        -- revert Hin. unfold async_timeout.timeout. rewrite E. cbn. by intros [|[]].
      * revert Hin. unfold async_timeout.timeout.
        destruct (Qle_bool (elapsed s) 10); [|cbn; by intros [|[]]].
        destruct (outcome s); [done|]. cbn. by intros [|[]].
    + intros [Hle Hok]. rewrite (timeout_within _ _ Hle).
      destruct (outcome s); [|done]. cbn. by right; left.
  - intros Hlt. by rewrite (timeout_exceeded _ _ Hlt).
  - intros Hle Hok Hlt. rewrite (timeout_within _ _ Hle).
    destruct (outcome s); [|done]. by rewrite (timeout_exceeded _ _ Hlt).
  - intros st dt Hs Hst Hd Hdt.
    by rewrite (timeout_within _ _ Hs), Hst, (timeout_within _ _ Hd), Hdt.
  - intros st dt Hs Hst Hd Hdt (ts & Hts & Hnone).
    rewrite (timeout_within _ _ Hs), Hst, (timeout_within _ _ Hd), Hdt.
    unfold builtins.dict_get. rewrite Hts. cbn. by destruct ts.
  - intros st ex Hs Hst Hd Hex.
    by rewrite (timeout_within _ _ Hs), Hst, (timeout_within _ _ Hd), Hex.
Qed.

(** C3, instance: two calls of 9 seconds each both deliver and the
    cycle returns their snapshot; a state call of 11 seconds times out and
    the details call is not made. *)
Lemma C3_state_then_details_each_bounded_witness :
  result_of (coordinator._async_update_data
               (stored (timed_api {| elapsed := 9; outcome := Ok healthy_state |}
                                  {| elapsed := 9; outcome := Ok healthy_details |})))
    = Ok (coordinator.Snapshot.mk healthy_state healthy_details)
  /\ result_of (coordinator._async_update_data
                  (stored (timed_api {| elapsed := 11; outcome := Ok healthy_state |}
                                     {| elapsed := 1; outcome := Ok healthy_details |})))
     = Raise (UpdateFailed "Error communicating with API: " (Some TimeoutError)).
Proof.
  split.
  - pose proof (C3_state_then_details_each_bounded
                  (stored (timed_api {| elapsed := 9; outcome := Ok healthy_state |}
                                     {| elapsed := 9; outcome := Ok healthy_details |})))
      as H.
    cbn zeta in H. destruct H as (_ & _ & _ & _ & _ & H & _).
    apply H; [discriminate | reflexivity | discriminate | reflexivity |].
    exists (VInt 111). split; [reflexivity | discriminate].
  - pose proof (C3_state_then_details_each_bounded
                  (stored (timed_api {| elapsed := 11; outcome := Ok healthy_state |}
                                     {| elapsed := 1; outcome := Ok healthy_details |})))
      as H.
    cbn zeta in H. destruct H as (_ & _ & H & _).
    apply H. reflexivity.
Defined.

(** ** The fan: percentage and speed *)

Lemma speed_of_percentage_eq (p : Z) :
  fan.speed_of_percentage p = - (- (3 * p) / 100).
Proof.
  unfold fan.speed_of_percentage, builtins.math_ceil,
    percentage.percentage_to_ranged_value, percentage.states_in_range,
    fan.SPEED_RANGE, Qceiling, Qfloor.
  cbn. do 3 f_equal. lia.
Qed.

(** [math.ceil]: the speed is the least whole step at or above
    [3 * p / 100]. *)
Lemma speed_of_percentage_ceil (p s : Z) :
  fan.speed_of_percentage p = s <-> 100 * (s - 1) < 3 * p <= 100 * s.
Proof.
  rewrite speed_of_percentage_eq.
  pose proof (Z.div_mod (- (3 * p)) 100 ltac:(lia)) as Hdm.
  pose proof (Z.mod_pos_bound (- (3 * p)) 100 ltac:(lia)) as Hb.
  split; intros H; lia.
Qed.

Lemma async_set_percentage_patches (self : fan.ZehnderCloudFan) (p : Z) :
  sent_patches (trace_of (fan.async_set_percentage self p))
  = [fan.preset_patch (fan.speed_of_percentage p)].
Proof.
  unfold trace_of, fan.async_set_percentage. cbn.
  by destruct (outcome (set_device_settings _ _ _)).
Qed.

Lemma percentage_of_preset (self : fan.ZehnderCloudFan) (st : DeviceState.t) (s : Z) :
  coordinator.state (fan.coordinator self) = Ok st ->
  DeviceState.data st !! "ventilationPreset" = Some (VInt s) ->
  fan.percentage self = Ok (s * 100 / 3).
Proof.
  intros Hst Hs. unfold fan.percentage, state_value. rewrite Hst. cbn.
  unfold DeviceState.value. rewrite Hs. cbn.
  unfold percentage.ranged_value_to_percentage, percentage.states_in_range,
    fan.SPEED_RANGE.
  cbn. by rewrite Z.sub_0_r.
Qed.

(** ** C4: percentage to speed *)

(** C4.  The speed [async_set_percentage] sends is [3 * p / 100] rounded
    up to a whole step: percentage 0 gives 0 (off, below the range 1..3),
    every percentage from 34 to 66 gives 2, percentage 100 gives 3. *)
Theorem C4_percentage_to_speed :
  fan.speed_of_percentage 0 = 0
  /\ (forall p, 34 <= p <= 66 -> fan.speed_of_percentage p = 2)
  /\ fan.speed_of_percentage 100 = 3
  /\ (forall p, 0 <= p <= 100 ->
        0 <= fan.speed_of_percentage p <= 3
        /\ 100 * (fan.speed_of_percentage p - 1) < 3 * p <= 100 * fan.speed_of_percentage p)
  /\ (forall self p,
        sent_patches (trace_of (fan.async_set_percentage self p))
        = [{[ "setVentilationPreset" := VDict {[ "value" := VInt (fan.speed_of_percentage p) ]} ]}]).
Proof.
  split; [reflexivity|].
  split; [intros p Hp; apply speed_of_percentage_ceil; lia|].
  split; [reflexivity|].
  split; [|apply async_set_percentage_patches].
  intros p Hp.
  pose proof (proj1 (speed_of_percentage_ceil p _) eq_refl) as H. lia.
Qed.

(** C4, instance: percentage 50 gives speed 2. *)
Lemma C4_percentage_to_speed_witness :
  34 <= 50 <= 66 /\ fan.speed_of_percentage 50 = 2.
Proof.
  split; [lia|].
  apply (proj1 (proj2 C4_percentage_to_speed) 50). lia.
Defined.

(** ** C5: speed to percentage and back *)

(** C5.  For a speed [s] in 1..3 reported as the ventilation preset, the
    fan's [percentage] is [s * 100 / 3] rounded down, the greatest
    percentage whose speed is [s]; setting that percentage sends speed [s]
    again. *)
Theorem C5_speed_percentage_round_trip (self : fan.ZehnderCloudFan) (st : DeviceState.t) (s : Z) :
  1 <= s <= 3 ->
  coordinator.state (fan.coordinator self) = Ok st ->
  DeviceState.data st !! "ventilationPreset" = Some (VInt s) ->
  exists p,
    fan.percentage self = Ok p
    /\ p = s * 100 / 3
    /\ fan.speed_of_percentage p = s
    /\ (forall q, fan.speed_of_percentage q = s -> q <= p)
    /\ sent_patches (trace_of (fan.async_set_percentage self p)) = [fan.preset_patch s].
Proof.
  intros Hs Hst Hpreset. exists (s * 100 / 3).
  assert (fan.speed_of_percentage (s * 100 / 3) = s) as Hback.
  { apply speed_of_percentage_ceil.
    pose proof (Z.div_mod (s * 100) 3 ltac:(lia)).
    pose proof (Z.mod_pos_bound (s * 100) 3 ltac:(lia)). lia. }
  split; [by apply (percentage_of_preset self st)|].
  split; [done|]. split; [done|]. split.
  - intros q Hq. apply speed_of_percentage_ceil in Hq.
    apply Z.div_le_lower_bound; lia.
  - by rewrite async_set_percentage_patches, Hback.
Qed.

(** C5, instance: the stored preset 1 reads as [1 * 100 / 3] percent, and
    that percentage sets preset 1. *)
Lemma C5_speed_percentage_round_trip_witness :
  exists p,
    fan.percentage (fan.__init__ (stored (mock_api (Ok healthy_state) (Ok healthy_details)))) = Ok p
    /\ p = 1 * 100 / 3
    /\ fan.speed_of_percentage p = 1
    /\ (forall q, fan.speed_of_percentage q = 1 -> q <= p)
    /\ sent_patches
         (trace_of (fan.async_set_percentage
                      (fan.__init__ (stored (mock_api (Ok healthy_state) (Ok healthy_details)))) p))
       = [fan.preset_patch 1].
Proof.
  apply (C5_speed_percentage_round_trip
           (fan.__init__ (stored (mock_api (Ok healthy_state) (Ok healthy_details))))
           (coordinator.Snapshot.state previous_snapshot) 1).
  - lia.
  - reflexivity.
  - reflexivity.
Defined.

(** ** C10: turning the fan on and off *)

(** C10.  [async_turn_on] without a percentage is [async_set_percentage]
    with 1 and sends speed 1, the lowest speed of the range; [async_turn_off]
    sends speed 0. *)
Theorem C10_turn_on_low_turn_off_zero (self : fan.ZehnderCloudFan) :
  fan.async_turn_on self None = fan.async_set_percentage self 1
  /\ fan.speed_of_percentage 1 = 1
  /\ sent_patches (trace_of (fan.async_turn_on self None))
     = [{[ "setVentilationPreset" := VDict {[ "value" := VInt 1 ]} ]}]
  /\ fst fan.SPEED_RANGE = 1
  /\ sent_patches (trace_of (fan.async_turn_off self))
     = [{[ "setVentilationPreset" := VDict {[ "value" := VInt 0 ]} ]}].
Proof.
  split; [reflexivity|]. split; [reflexivity|].
  split; [apply (async_set_percentage_patches self 1)|].
  split; [reflexivity|].
  apply (async_set_percentage_patches self 0).
Qed.

(** ** C9: the select entity *)

(** C9.  Whatever option is selected, [async_select_option] sends the
    patch [{"forceBypass": {"seconds": 60}}] and nothing else depends on
    the option; the descriptor's [command] gives the same patch for every
    option; [current_option] is "auto" for every coordinator state. *)
Theorem C9_select_ignores_option (self : select.ZehnderCloudSelect) (option1 option2 : string) :
  sent_patches (trace_of (select.async_select_option self option1))
    = [{[ "forceBypass" := VDict {[ "seconds" := VInt 60 ]} ]}]
  /\ select.async_select_option self option1 = select.async_select_option self option2
  /\ Forall (fun d => select.command d option1
                      = {[ "forceBypass" := VDict {[ "seconds" := VInt 60 ]} ]}
                      /\ select.command d option1 = select.command d option2)
       select.DESCRIPTORS
  /\ select.current_option self = "auto".
Proof.
  split; [|split; [reflexivity|split; [|reflexivity]]].
  - unfold trace_of, select.async_select_option. cbn.
    by destruct (outcome (set_device_settings _ _ _)).
  - by repeat constructor.
Qed.

(** ** C8: the scenario of spec 8 *)

(** C8, counterexample.  In the scenario the fan's [percentage] is 66,
    which is 16 points away from 50: preset 2 of 3 is two thirds of the
    scale, not its half. *)
Lemma C8_counterexample :
  coordinator.get_snapshot scenario
    = Some (coordinator.Snapshot.mk (DeviceState.mk scenario_state)
              (DeviceDetails.mk scenario_details))
  /\ fan.percentage (fan.__init__ scenario) = Ok 66
  /\ fan.percentage (fan.__init__ scenario) <> Ok 50
  /\ Z.abs (66 - 50) = 16.
Proof. repeat split. discriminate. Qed.

(** C8, amended.  For the snapshot with state
    [{"timestamp": 111, "ventilationPreset": 2}] and details
    [{"swVersion": "R1.4.0"}], the fan's [percentage] is 66 (200 / 3 rounded
    down) and the "Ventilation Preset" sensor reads 2. *)
Theorem C8_scenario_reads :
  coordinator.get_snapshot scenario
    = Some (coordinator.Snapshot.mk (DeviceState.mk scenario_state)
              (DeviceDetails.mk scenario_details))
  /\ fan.percentage (fan.__init__ scenario) = Ok 66
  /\ map (fun d => sensor.native_value (sensor.__init__ scenario d))
         (sensors_named "Ventilation Preset")
     = [Ok (VInt 2)].
Proof. repeat split. Qed.

(** ** C6: the scaled sensors *)

(** C6, counterexample.  With the raw value 264 the "exhaustAirTemp"
    sensor reads 264 / 10 by true division, the float nearest to 26.4; the
    integer quotient would be 26. *)
Lemma C6_counterexample :
  map (fun d => sensor.native_value
                  (sensor.__init__
                     (holding {[ "timestamp" := VInt 111; "exhaustAirTemp" := VInt 264 ]}) d))
      (sensors_keyed "exhaustAirTemp")
    = [Ok (VFloat (7430939385161318 # 281474976710656))]
  /\ 264 / 10 = 26
  /\ ~ (7430939385161318 # 281474976710656 == inject_Z (264 / 10))%Q
  /\ ((26399 # 1000) < (7430939385161318 # 281474976710656) < (26401 # 1000))%Q.
Proof.
  split; [reflexivity|]. split; [reflexivity|]. split.
  - unfold Qeq. cbn. lia.
  - unfold Qlt. cbn. lia.
Qed.

(** C6, amended.  For each of the four temperature descriptions, whose
    lambda is [int(value) / 10], the extracted value is the result of the
    true division of the raw tenths by the constant 10: the float nearest to
    the quotient, and [OverflowError] when the quotient is beyond the float
    range.  For a raw value of magnitude below [2 ^ 53] it is a float within
    1/16 of the quotient, and it equals the integer quotient exactly when
    the raw value is a multiple of 10. *)
Theorem C6_scaled_by_true_division (c : coordinator.ZehnderCloudUpdateCoordinator) (d : sensor.ZehnderCloudSensorEntityDescription) (v : PyVal) (n : Z) :
  In d sensor.SENSORS ->
  In (sensor.key d) scaled_keys ->
  state_value c (sensor.key d) = Ok v ->
  builtins.int v = Ok n ->
  sensor.native_value (sensor.__init__ c d)
    = match builtins.binary64_div n 10 with
      | Some q => Ok (VFloat q)
      | None =>
          Raise (OtherException "OverflowError" "integer division result too large for a float")
      end
  /\ (Z.abs n < 2 ^ 53 ->
      exists q,
        sensor.native_value (sensor.__init__ c d) = Ok (VFloat q)
        /\ ((n # 10) - (1 # 16) <= q <= (n # 10) + (1 # 16))%Q
        /\ ((q == inject_Z (n / 10))%Q <-> n mod 10 = 0)).
Proof.
  intros Hd Hk Hv Hn.
  assert (sensor.native_value (sensor.__init__ c d) = builtins.truediv n 10) as E.
  { cbn in Hd.
    repeat (destruct Hd as [<- | Hd]; [|]); try done;
      cbn in Hk; try (exfalso; repeat (destruct Hk as [Hk|Hk]; [discriminate Hk|]); done);
      unfold sensor.native_value; cbn in *; rewrite Hv; cbn; by rewrite Hn. }
  rewrite E. split; [apply truediv_by_10|]. apply truediv_10.
Qed.

(** C6, instance: the "exhaustAirTemp" description on the raw value 264. *)
Lemma C6_scaled_by_true_division_witness :
  exists q,
    sensor.native_value
      (sensor.__init__
         (holding {[ "timestamp" := VInt 111; "exhaustAirTemp" := VInt 264 ]})
         (sensor.Description "exhaustAirTemp" "Exhaust air temperature" true
            (fun c => v ← state_value c "exhaustAirTemp"; n ← builtins.int v;
                      builtins.truediv n 10)))
    = Ok (VFloat q)
    /\ ((264 # 10) - (1 # 16) <= q <= (264 # 10) + (1 # 16))%Q
    /\ ((q == inject_Z (264 / 10))%Q <-> 264 mod 10 = 0).
Proof.
  apply (proj2 (C6_scaled_by_true_division
                  (holding {[ "timestamp" := VInt 111; "exhaustAirTemp" := VInt 264 ]})
                  (sensor.Description "exhaustAirTemp" "Exhaust air temperature" true
                     (fun c => v ← state_value c "exhaustAirTemp"; n ← builtins.int v;
                               builtins.truediv n 10))
                  (VInt 264) 264
                  ltac:(left; reflexivity) ltac:(left; reflexivity)
                  ltac:(reflexivity) ltac:(reflexivity))).
  reflexivity.
Defined.

(** ** C7: a missing field *)

Lemma all_read_as_converted : Forall reads_as_converted all_descriptors.
Proof.
  unfold all_descriptors. cbn [map app sensor.SENSORS binary_sensor.SENSORS].
  repeat (apply List.Forall_cons;
    [ intros c; (split; [intros ex Hv | intros v Hv]);
      unfold read, sensor.native_value, binary_sensor.is_on, accepts; cbn in *;
      rewrite Hv; cbn; try done;
      destruct (builtins.int v) as [n|ex]; cbn;
      first
        [ done
        | split; [done | by intros [n' [[=] _]]]
        | split; [intros E; by exists n | by intros [n' [[= <-] E]]] ]
    | ]).
  apply List.Forall_nil.
Qed.

Lemma state_value_lookup (c : coordinator.ZehnderCloudUpdateCoordinator) (st : DeviceState.t) (key : string) :
  coordinator.state c = Ok st ->
  state_value c key =
    match DeviceState.data st !! key with
    | Some v => Ok v
    | None => Raise (KeyError key)
    end.
Proof. intros Hst. unfold state_value. by rewrite Hst. Qed.

(** C7, counterexample.  The state has no "exhaustAirTemp" and holds
    "exhaustAirHumidity" with a null value, or with a string that is no
    number: the key of the humidity sensor is present, yet reading it fails
    in [int()]. *)
Lemma C7_counterexample :
  (let state : gmap string PyVal :=
     {[ "timestamp" := VInt 111; "exhaustAirHumidity" := VNone ]} in
   state !! "exhaustAirTemp" = None
   /\ state !! "exhaustAirHumidity" = Some VNone
   /\ map (read (holding state)) (descriptors_keyed "exhaustAirHumidity")
      = [Raise (TypeError "int() argument must be a string, a bytes-like object or a real number")])
  /\ (let state : gmap string PyVal :=
        {[ "timestamp" := VInt 111; "exhaustAirHumidity" := VStr "n/a" ]} in
      state !! "exhaustAirTemp" = None
      /\ state !! "exhaustAirHumidity" = Some (VStr "n/a")
      /\ map (read (holding state)) (descriptors_keyed "exhaustAirHumidity")
         = [Raise (ValueError "invalid literal for int() with base 10")]).
Proof. repeat split. Qed.

(** C7, amended.  For every snapshot and every pair of descriptors of the
    sensor and binary-sensor tables, if the first descriptor's key is absent
    from the state then reading that descriptor's entity fails with the
    failed lookup, while reading the second descriptor's entity on the same
    snapshot, when its own key is present, succeeds exactly when its
    conversion accepts the stored value: any value for the pass-through
    sensors and the binary sensors, a value [int()] accepts for the
    converting sensors, and for the four sensors that divide by 10 also a
    quotient within the float range, which every raw value of magnitude
    below [2 ^ 53] has. *)
Theorem C7_missing_key_fails_alone (c : coordinator.ZehnderCloudUpdateCoordinator) (st : DeviceState.t) (d1 d2 : Descriptor) :
  In d1 all_descriptors ->
  In d2 all_descriptors ->
  coordinator.state c = Ok st ->
  DeviceState.data st !! descriptor_key d1 = None ->
  read c d1 = Raise (KeyError (descriptor_key d1))
  /\ (forall v,
        DeviceState.data st !! descriptor_key d2 = Some v ->
        (is_Ok (read c d2) = true
         <-> match conversion d2 with
             | PassThrough | BoolCast => True
             | IntCast => is_Ok (builtins.int v) = true
             | IntScaled =>
                 exists n, builtins.int v = Ok n /\ is_Ok (builtins.truediv n 10) = true
             end))
  /\ (forall n, Z.abs n < 2 ^ 53 -> is_Ok (builtins.truediv n 10) = true)
  /\ (map (fun k => length (List.filter (fun d => same_conversion (conversion d) k) all_descriptors))
          [PassThrough; BoolCast; IntCast; IntScaled]
      = [8; 8; 12; 4]%nat).
Proof.
  intros H1 H2 Hst Habsent.
  pose proof (proj1 (List.Forall_forall _ _) all_read_as_converted) as Hall.
  split; [|split; [|split]].
  - apply (Hall d1 H1 c). by rewrite (state_value_lookup c st), Habsent.
  - intros v Hv. apply (Hall d2 H2 c).
    by rewrite (state_value_lookup c st), Hv.
  - intros n Hn. by destruct (truediv_10 n Hn) as (q & -> & _).
  - reflexivity.
Qed.

(** C7, instance: no "exhaustAirTemp", "awayEnabled" present. *)
Lemma C7_missing_key_fails_alone_witness :
  read (holding {[ "timestamp" := VInt 111; "awayEnabled" := VBool true ]})
       (OfSensor (sensor.Description "exhaustAirTemp" "Exhaust air temperature" true
                    (fun c => v ← state_value c "exhaustAirTemp"; n ← builtins.int v;
                              builtins.truediv n 10)))
    = Raise (KeyError "exhaustAirTemp")
  /\ is_Ok (read (holding {[ "timestamp" := VInt 111; "awayEnabled" := VBool true ]})
                 (OfBinarySensor (binary_sensor.Description "awayEnabled" "Away mode" true
                    (fun c => v ← state_value c "awayEnabled"; mret (builtins.bool v)))))
     = true.
Proof.
  pose proof (C7_missing_key_fails_alone
                (holding {[ "timestamp" := VInt 111; "awayEnabled" := VBool true ]})
                (DeviceState.mk {[ "timestamp" := VInt 111; "awayEnabled" := VBool true ]})
                (OfSensor (sensor.Description "exhaustAirTemp" "Exhaust air temperature" true
                    (fun c => v ← state_value c "exhaustAirTemp"; n ← builtins.int v;
                              builtins.truediv n 10)))
                (OfBinarySensor (binary_sensor.Description "awayEnabled" "Away mode" true
                    (fun c => v ← state_value c "awayEnabled"; mret (builtins.bool v)))))
    as H.
  destruct H as (Hfail & Hsibling & _).
  - left. reflexivity.
  - unfold all_descriptors. apply in_or_app. right. left. reflexivity.
  - reflexivity.
  - reflexivity.
  - split; [exact Hfail|].
    apply (proj2 (Hsibling (VBool true) eq_refl)). exact I.
Defined.

(** * Further properties of the code *)

(** ** The fetch cycle: when it succeeds, what it raises *)

(** X1.  A fetch cycle returns a snapshot exactly when both guarded calls
    returned and the state's "timestamp" is present and not null; the
    snapshot is then the pair of what the two calls returned.  The check is
    [is None], not truthiness: a timestamp of 0 passes. *)
Theorem X1_cycle_succeeds_iff (self : coordinator.ZehnderCloudUpdateCoordinator) (snapshot : coordinator.Snapshot.t) :
  result_of (coordinator._async_update_data self) = Ok snapshot
  <-> state_call self = Ok (coordinator.Snapshot.state snapshot)
      /\ details_call self = Ok (coordinator.Snapshot.details snapshot)
      /\ has_timestamp (coordinator.Snapshot.state snapshot).
Proof.
  rewrite update_data_result. split.
  - intros Hok.
    destruct (state_call self) as [st|ex]; [|done].
    destruct (details_call self) as [dt|ex]; [|done].
    destruct (builtins.is_None _) eqn:Hts; [done|].
    injection Hok as <-. cbn. split; [done|]. split; [done|].
    unfold has_timestamp. unfold builtins.dict_get in Hts.
    destruct (DeviceState.data st !! "timestamp") as [ts|]; [|done].
    exists ts. split; [done|]. by intros ->.
  - intros (-> & -> & ts & Hts & Hnone). destruct snapshot as [st dt]. cbn in *.
    unfold builtins.dict_get. rewrite Hts. cbn. by destruct ts.
Qed.

(** X1, instance: a state whose timestamp is 0. *)
Lemma X1_cycle_succeeds_iff_witness :
  result_of (coordinator._async_update_data
               (stored (mock_api (Ok (DeviceState.mk {[ "timestamp" := VInt 0 ]}))
                                 (Ok healthy_details))))
  = Ok (coordinator.Snapshot.mk (DeviceState.mk {[ "timestamp" := VInt 0 ]}) healthy_details).
Proof.
  apply (proj2 (X1_cycle_succeeds_iff
                  (stored (mock_api (Ok (DeviceState.mk {[ "timestamp" := VInt 0 ]}))
                                    (Ok healthy_details)))
                  (coordinator.Snapshot.mk (DeviceState.mk {[ "timestamp" := VInt 0 ]})
                     healthy_details))).
  split; [reflexivity|]. split; [reflexivity|].
  exists (VInt 0). split; [reflexivity | discriminate].
Defined.

(** X2.  Whatever the client does, a fetch cycle raises nothing but
    [UpdateFailed] and [ConfigEntryAuthFailed]; the latter only with an
    [AuthError] that one of the two calls raised as its cause. *)
Theorem X2_cycle_raises_only_translated (self : coordinator.ZehnderCloudUpdateCoordinator) (ex : PyExc) :
  result_of (coordinator._async_update_data self) = Raise ex ->
  (is_UpdateFailed ex = true
   \/ exists m,
        ex = ConfigEntryAuthFailed "Credentials expired for Zehnder Cloud" (AuthError m)
        /\ (state_call self = Raise (AuthError m)
            \/ details_call self = Raise (AuthError m))).
Proof.
  rewrite update_data_result. intros Hex.
  assert (forall ex',
            Raise (A := coordinator.Snapshot.t) (surfaced ex') = Raise ex ->
            is_UpdateFailed ex = true
            \/ exists m, ex = ConfigEntryAuthFailed "Credentials expired for Zehnder Cloud" (AuthError m)
                 /\ ex' = AuthError m) as Hsurf.
  { intros ex' [= <-]. unfold surfaced. destruct ex'; cbn; try (by left).
    right. by eexists. }
  destruct (state_call self) as [st|ex1].
  - destruct (details_call self) as [dt|ex2].
    + destruct (builtins.is_None _); [|done]. injection Hex as <-. by left.
    + destruct (Hsurf _ Hex) as [?|(m & -> & ->)]; [by left|].
      right. exists m. split; [done|]. by right.
  - destruct (Hsurf _ Hex) as [?|(m & -> & ->)]; [by left|].
    right. exists m. split; [done|]. by left.
Qed.

(** X2, instance: a client that itself raises [ConfigEntryAuthFailed] is
    reported as a transient failure. *)
Lemma X2_cycle_raises_only_translated_witness :
  is_UpdateFailed
    (UpdateFailed "Error communicating with API: stale"
       (Some (ConfigEntryAuthFailed "stale" TimeoutError))) = true
  \/ exists m,
       UpdateFailed "Error communicating with API: stale"
         (Some (ConfigEntryAuthFailed "stale" TimeoutError))
       = ConfigEntryAuthFailed "Credentials expired for Zehnder Cloud" (AuthError m)
       /\ (state_call (stored (mock_api (Raise (ConfigEntryAuthFailed "stale" TimeoutError))
                                        (Ok healthy_details)))
           = Raise (AuthError m)
           \/ details_call (stored (mock_api (Raise (ConfigEntryAuthFailed "stale" TimeoutError))
                                             (Ok healthy_details)))
              = Raise (AuthError m)).
Proof.
  apply (X2_cycle_raises_only_translated
           (stored (mock_api (Raise (ConfigEntryAuthFailed "stale" TimeoutError))
                             (Ok healthy_details)))).
  reflexivity.
Defined.

(** ** Entities read their own field of the stored snapshot *)

Lemma all_read_only_own_key :
  Forall (fun d => forall c1 c2 : coordinator.ZehnderCloudUpdateCoordinator,
            state_value c1 (descriptor_key d) = state_value c2 (descriptor_key d) ->
            read c1 d = read c2 d)
    all_descriptors.
Proof.
  unfold all_descriptors. cbn [map app sensor.SENSORS binary_sensor.SENSORS].
  repeat (apply List.Forall_cons;
    [ intros c1 c2 Hv;
      unfold read, sensor.native_value, binary_sensor.is_on; cbn in *;
      by rewrite Hv
    | ]).
  apply List.Forall_nil.
Qed.

Lemma state_value_same_data (c1 c2 : coordinator.ZehnderCloudUpdateCoordinator) (key : string) :
  coordinator.data c1 = coordinator.data c2 ->
  state_value c1 key = state_value c2 key.
Proof. intros E. unfold state_value, coordinator.state. by rewrite E. Qed.

(** X3.  The value an entity of either table reads is determined by what
    the stored state holds under the entity's own key: two coordinators
    whose lookups of that key agree give the same value, or the same
    exception, whatever else their snapshots hold. *)
Theorem X3_entity_reads_only_own_key (d : Descriptor) (c1 c2 : coordinator.ZehnderCloudUpdateCoordinator) :
  In d all_descriptors ->
  state_value c1 (descriptor_key d) = state_value c2 (descriptor_key d) ->
  read c1 d = read c2 d.
Proof.
  intros Hd. by apply (proj1 (List.Forall_forall _ _) all_read_only_own_key d Hd).
Qed.

(** X3, instance: the humidity sensor reads 57 whether or not the state
    also holds a temperature and a timestamp. *)
Lemma X3_entity_reads_only_own_key_witness :
  read (holding {[ "exhaustAirHumidity" := VInt 57 ]})
       (OfSensor (sensor.Description "exhaustAirHumidity" "Exhaust air humidity" true
          (fun c => v ← state_value c "exhaustAirHumidity"; n ← builtins.int v; mret (VInt n))))
  = read (holding {[ "timestamp" := VInt 111; "exhaustAirTemp" := VNone;
                     "exhaustAirHumidity" := VInt 57 ]})
       (OfSensor (sensor.Description "exhaustAirHumidity" "Exhaust air humidity" true
          (fun c => v ← state_value c "exhaustAirHumidity"; n ← builtins.int v; mret (VInt n)))).
Proof.
  apply X3_entity_reads_only_own_key.
  - right. left. reflexivity.
  - reflexivity.
Defined.

(** X4.  A failed fetch cycle changes nothing an entity shows: every
    sensor and binary sensor reads what it read before, the fan reports the
    percentage it reported before, and the coordinator records the
    exception and the failure. *)
Theorem X4_failed_cycle_keeps_entity_values (self : coordinator.ZehnderCloudUpdateCoordinator) (ex : PyExc) (d : Descriptor) :
  In d all_descriptors ->
  result_of (coordinator._async_update_data self) = Raise ex ->
  read (after_refresh self) d = read self d
  /\ fan.percentage (fan.__init__ (after_refresh self)) = fan.percentage (fan.__init__ self)
  /\ coordinator.last_exception (after_refresh self) = Some ex
  /\ coordinator.last_update_success (after_refresh self) = false.
Proof.
  intros Hd Hex.
  assert (coordinator.data (after_refresh self) = coordinator.data self) as Hdata.
  { pose proof (after_refresh_snapshot self) as E. by rewrite Hex in E. }
  split; [|split; [|split]].
  - apply (proj1 (List.Forall_forall _ _) all_read_only_own_key d Hd).
    by apply state_value_same_data.
  - unfold fan.percentage. cbn. by rewrite (state_value_same_data _ self).
  - by rewrite after_refresh_exception, Hex.
  - unfold after_refresh, result_of, coordinator.async_refresh in *. cbn [run].
    by destruct (run (coordinator._async_update_data self) []) as [tr [s|e]].
Qed.

(** X4, instance: the details call times out; the fan keeps showing the
    stored preset 1 as 33 percent. *)
Lemma X4_failed_cycle_keeps_entity_values_witness :
  fan.percentage
    (fan.__init__
       (after_refresh
          (stored (timed_api {| elapsed := 1; outcome := Ok healthy_state |}
                             {| elapsed := 12; outcome := Ok healthy_details |}))))
  = Ok 33.
Proof.
  pose proof (X4_failed_cycle_keeps_entity_values
                (stored (timed_api {| elapsed := 1; outcome := Ok healthy_state |}
                                   {| elapsed := 12; outcome := Ok healthy_details |}))
                (UpdateFailed "Error communicating with API: " (Some TimeoutError))
                (OfSensor (sensor.Description "ventilationPreset" "Ventilation Preset" true
                   (fun c => state_value c "ventilationPreset"))))
    as Hkeep.
  destruct Hkeep as (_ & Hfan & _).
  - unfold all_descriptors. apply in_or_app. left.
    do 22 right. left. reflexivity.
  - reflexivity.
  - rewrite Hfan. reflexivity.
Defined.

(** ** Successive cycles *)

Lemma cycle_same_client (c1 c2 : coordinator.ZehnderCloudUpdateCoordinator) :
  coordinator._client c1 = coordinator._client c2 ->
  coordinator._device_id c1 = coordinator._device_id c2 ->
  result_of (coordinator._async_update_data c1)
  = result_of (coordinator._async_update_data c2).
Proof.
  intros Hc Hid. rewrite !update_data_result.
  unfold state_call, details_call, coordinator.client, coordinator.device_id.
  by rewrite Hc, Hid.
Qed.

Lemma poll_step (self : coordinator.ZehnderCloudUpdateCoordinator) api rest :
  coordinator.poll self (api :: rest)
  = coordinator.poll (after_refresh (coordinator.with_client self api)) rest.
Proof.
  cbn [coordinator.poll]. unfold after_refresh.
  destruct (result_of (coordinator.async_refresh _)) as [self'|ex] eqn:E; [done|].
  unfold result_of, coordinator.async_refresh in E. cbn [run] in E.
  by destruct (run (coordinator._async_update_data _) []) as [tr [s|e]].
Qed.

Lemma after_refresh_device_id (self : coordinator.ZehnderCloudUpdateCoordinator) :
  coordinator._device_id (after_refresh self) = coordinator._device_id self.
Proof.
  unfold after_refresh, result_of, coordinator.async_refresh. cbn [run].
  by destruct (run (coordinator._async_update_data self) []) as [tr [s|e]].
Qed.

Lemma poll_device_id apis :
  forall self : coordinator.ZehnderCloudUpdateCoordinator,
    coordinator._device_id (coordinator.poll self apis) = coordinator._device_id self.
Proof.
  induction apis as [|api rest IH]; intros self; [done|].
  by rewrite poll_step, IH, after_refresh_device_id.
Qed.

Lemma poll_app apis1 :
  forall (self : coordinator.ZehnderCloudUpdateCoordinator) apis2,
    coordinator.poll self (apis1 ++ apis2)
    = coordinator.poll (coordinator.poll self apis1) apis2.
Proof.
  induction apis1 as [|api rest IH]; intros self apis2; [done|].
  cbn [app]. by rewrite !poll_step, IH.
Qed.

Lemma poll_all_failed apis :
  forall self c : coordinator.ZehnderCloudUpdateCoordinator,
    coordinator._device_id c = coordinator._device_id self ->
    Forall (fun api =>
              is_Ok (result_of (coordinator._async_update_data
                                  (coordinator.with_client self api))) = false) apis ->
    coordinator.get_snapshot (coordinator.poll c apis) = coordinator.get_snapshot c.
Proof.
  induction apis as [|api rest IH]; intros self c Hid Hall; [done|].
  apply List.Forall_cons_iff in Hall as [Hfail Hrest].
  rewrite poll_step, (IH self); [| by rewrite after_refresh_device_id | done].
  rewrite after_refresh_snapshot.
  rewrite (cycle_same_client _ (coordinator.with_client self api)); [|done|done].
  by destruct (result_of _).
Qed.

(** X5.  Over any sequence of fetch cycles the coordinator stores the
    snapshot of the last cycle that succeeded: once a cycle has returned a
    snapshot, any number of failing cycles after it leave that snapshot in
    place, whatever was stored before; and cycles that all fail leave the
    stored snapshot as it was. *)
Theorem X5_last_successful_snapshot_stays (self : coordinator.ZehnderCloudUpdateCoordinator) (before after : list ZehnderCloud) (api : ZehnderCloud) (snapshot : coordinator.Snapshot.t) :
  Forall (fun a =>
            is_Ok (result_of (coordinator._async_update_data
                                (coordinator.with_client self a))) = false) after ->
  result_of (coordinator._async_update_data (coordinator.with_client self api)) = Ok snapshot ->
  coordinator.get_snapshot (coordinator.poll self (before ++ api :: after)) = Some snapshot
  /\ coordinator.get_snapshot (coordinator.poll self after) = coordinator.get_snapshot self.
Proof.
  intros Hafter Hok. split; [|by apply (poll_all_failed after self)].
  rewrite poll_app, poll_step.
  rewrite (poll_all_failed after self); [| |done].
  - rewrite after_refresh_snapshot.
    rewrite (cycle_same_client _ (coordinator.with_client self api)), Hok; [done|done|].
    cbn. apply poll_device_id.
  - rewrite after_refresh_device_id. cbn. apply poll_device_id.
Qed.

(** X5, instance: a failure, a success, then a timeout and an
    authentication failure. *)
Lemma X5_last_successful_snapshot_stays_witness :
  coordinator.get_snapshot
    (coordinator.poll (stored (mock_api (Ok healthy_state) (Ok healthy_details)))
       ([mock_api (Raise TimeoutError) (Ok healthy_details)]
        ++ mock_api (Ok healthy_state) (Ok healthy_details)
        :: [timed_api {| elapsed := 11; outcome := Ok healthy_state |}
                      {| elapsed := 1; outcome := Ok healthy_details |};
            mock_api (Raise (AuthError "token expired")) (Ok healthy_details)]))
  = Some (coordinator.Snapshot.mk healthy_state healthy_details).
Proof.
  apply (X5_last_successful_snapshot_stays
           (stored (mock_api (Ok healthy_state) (Ok healthy_details)))
           [mock_api (Raise TimeoutError) (Ok healthy_details)]
           [timed_api {| elapsed := 11; outcome := Ok healthy_state |}
                      {| elapsed := 1; outcome := Ok healthy_details |};
            mock_api (Raise (AuthError "token expired")) (Ok healthy_details)]
           (mock_api (Ok healthy_state) (Ok healthy_details))
           (coordinator.Snapshot.mk healthy_state healthy_details)).
  - apply List.Forall_cons; [reflexivity|].
    apply List.Forall_cons; [reflexivity|]. apply List.Forall_nil.
  - reflexivity.
Defined.

(** ** Commands: what is sent, and when a refresh is requested *)

(** X6.  [async_set_percentage] calls the client once, with the preset
    patch.  When that call raises, the exception propagates unchanged and
    no refresh is requested; when it returns, a refresh is requested right
    after it. *)
Theorem X6_set_percentage_refreshes_after_success (self : fan.ZehnderCloudFan) (p : Z) :
  let c := fan.coordinator self in
  let patch := fan.preset_patch (fan.speed_of_percentage p) in
  let sent := EvSetDeviceSettings (coordinator.device_id c) patch in
  (forall ex,
     outcome (set_device_settings (coordinator.client c) (coordinator.device_id c) patch)
       = Raise ex ->
     result_of (fan.async_set_percentage self p) = Raise ex
     /\ trace_of (fan.async_set_percentage self p) = [sent])
  /\ (outcome (set_device_settings (coordinator.client c) (coordinator.device_id c) patch)
        = Ok tt ->
      result_of (fan.async_set_percentage self p) = Ok tt
      /\ trace_of (fan.async_set_percentage self p) = [sent; EvRequestRefresh]).
Proof.
  cbn zeta. unfold result_of, trace_of, fan.async_set_percentage. cbn.
  split; [intros ex E | intros E]; by rewrite E.
Qed.

(** X6, instance: the cloud rejects the command. *)
Lemma X6_set_percentage_refreshes_after_success_witness :
  let api := {| get_device_state := fun _ => {| elapsed := 0; outcome := Ok healthy_state |};
                get_device_details := fun _ => {| elapsed := 0; outcome := Ok healthy_details |};
                set_device_settings := fun _ _ =>
                  {| elapsed := 0; outcome := Raise (OtherException "ClientResponseError" "502") |} |} in
  result_of (fan.async_set_percentage (fan.__init__ (stored api)) 50)
    = Raise (OtherException "ClientResponseError" "502")
  /\ trace_of (fan.async_set_percentage (fan.__init__ (stored api)) 50)
     = [EvSetDeviceSettings 1 (fan.preset_patch 2)].
Proof.
  intros api.
  apply (proj1 (X6_set_percentage_refreshes_after_success (fan.__init__ (stored api)) 50)).
  reflexivity.
Defined.

(** X7.  [async_select_option] behaves the same way: one client call with
    the bypass patch; an exception of that call propagates and no refresh
    is requested, a return is followed by the refresh request. *)
Theorem X7_select_option_refreshes_after_success (self : select.ZehnderCloudSelect) (option : string) :
  let c := select.coordinator self in
  let patch : gmap string PyVal := {[ "forceBypass" := VDict {[ "seconds" := VInt 60 ]} ]} in
  let sent := EvSetDeviceSettings (coordinator.device_id c) patch in
  (forall ex,
     outcome (set_device_settings (coordinator.client c) (coordinator.device_id c) patch)
       = Raise ex ->
     result_of (select.async_select_option self option) = Raise ex
     /\ trace_of (select.async_select_option self option) = [sent])
  /\ (outcome (set_device_settings (coordinator.client c) (coordinator.device_id c) patch)
        = Ok tt ->
      result_of (select.async_select_option self option) = Ok tt
      /\ trace_of (select.async_select_option self option) = [sent; EvRequestRefresh]).
Proof.
  cbn zeta. unfold result_of, trace_of, select.async_select_option. cbn.
  split; [intros ex E | intros E]; by rewrite E.
Qed.

(** X7, instance: the command is accepted. *)
Lemma X7_select_option_refreshes_after_success_witness :
  let self := select.__init__ (stored (mock_api (Ok healthy_state) (Ok healthy_details)))
                (select.Description "bypassMode" "Bypass mode" ["auto"; "on"; "off"]
                   (fun option => {[ "forceBypass" := VDict {[ "seconds" := VInt 60 ]} ]})) in
  result_of (select.async_select_option self "on") = Ok tt
  /\ trace_of (select.async_select_option self "on")
     = [EvSetDeviceSettings 1 {[ "forceBypass" := VDict {[ "seconds" := VInt 60 ]} ]};
        EvRequestRefresh].
Proof.
  intros self.
  apply (proj2 (X7_select_option_refreshes_after_success self "on")).
  reflexivity.
Defined.

(** ** The fan outside the claimed range *)

(** X8.  The preset [async_set_percentage] sends grows with the
    percentage and is not clamped to the range: for percentages of magnitude
    up to [10 ^ 9] the preset sent is at most 3 exactly for percentages up
    to 100, and at least 1 exactly for percentages from 1 on; 101 percent
    sends preset 4. *)
Theorem X8_speed_monotone_unclamped (self : fan.ZehnderCloudFan) (p q : Z) :
  Z.abs p <= 10 ^ 9 ->
  Z.abs q <= 10 ^ 9 ->
  exists sp sq,
    sent_patches (trace_of (fan.async_set_percentage self p))
      = [{[ "setVentilationPreset" := VDict {[ "value" := VInt sp ]} ]}]
    /\ sent_patches (trace_of (fan.async_set_percentage self q))
       = [{[ "setVentilationPreset" := VDict {[ "value" := VInt sq ]} ]}]
    /\ (p <= q -> sp <= sq)
    /\ (sp <= 3 <-> p <= 100)
    /\ (1 <= sp <-> 1 <= p)
    /\ (p = 101 -> sp = 4).
Proof.
  intros _ _.
  exists (fan.speed_of_percentage p), (fan.speed_of_percentage q).
  split; [apply async_set_percentage_patches|].
  split; [apply async_set_percentage_patches|].
  pose proof (proj1 (speed_of_percentage_ceil p _) eq_refl) as Hp.
  pose proof (proj1 (speed_of_percentage_ceil q _) eq_refl) as Hq.
  split; [intros; lia|]. split; [split; intros; lia|]. split; [split; intros; lia|].
  by intros ->.
Qed.

(** X8, instance: 101 percent sends preset 4, 100 percent preset 3. *)
Lemma X8_speed_monotone_unclamped_witness :
  exists sp sq,
    sent_patches (trace_of (fan.async_set_percentage (fan.__init__ scenario) 101))
      = [{[ "setVentilationPreset" := VDict {[ "value" := VInt sp ]} ]}]
    /\ sent_patches (trace_of (fan.async_set_percentage (fan.__init__ scenario) 100))
       = [{[ "setVentilationPreset" := VDict {[ "value" := VInt sq ]} ]}]
    /\ (101 <= 100 -> sp <= sq)
    /\ (sp <= 3 <-> 101 <= 100)
    /\ (1 <= sp <-> 1 <= 101)
    /\ (101 = 101 -> sp = 4).
Proof.
  apply (X8_speed_monotone_unclamped (fan.__init__ scenario) 101 100); cbn; lia.
Defined.

(** X9.  Setting a percentage and reading it back: [async_set_percentage]
    with a percentage [p] of 0..100 sends one preset; when the device then
    reports that preset, the fan's [percentage] is a [p'] with
    [p <= p' <= p + 33] and [p' <= 100], and setting [p'] sends the same
    preset again. *)
Theorem X9_percentage_read_back (self : fan.ZehnderCloudFan) (st : DeviceState.t) (p : Z) :
  0 <= p <= 100 ->
  coordinator.state (fan.coordinator self) = Ok st ->
  exists s,
    sent_patches (trace_of (fan.async_set_percentage self p))
      = [{[ "setVentilationPreset" := VDict {[ "value" := VInt s ]} ]}]
    /\ (DeviceState.data st !! "ventilationPreset" = Some (VInt s) ->
        exists p',
          fan.percentage self = Ok p'
          /\ p <= p' <= p + 33
          /\ p' <= 100
          /\ sent_patches (trace_of (fan.async_set_percentage self p'))
             = [{[ "setVentilationPreset" := VDict {[ "value" := VInt s ]} ]}]).
Proof.
  intros Hp Hst.
  exists (fan.speed_of_percentage p).
  split; [apply async_set_percentage_patches|].
  intros Hpreset.
  exists (fan.speed_of_percentage p * 100 / 3).
  split; [by apply (percentage_of_preset self st)|].
  pose proof (proj1 (speed_of_percentage_ceil p _) eq_refl) as Hs.
  set (s := fan.speed_of_percentage p) in *.
  pose proof (Z.div_mod (s * 100) 3 ltac:(lia)) as Hdm.
  pose proof (Z.mod_pos_bound (s * 100) 3 ltac:(lia)) as Hb.
  split; [lia|]. split; [lia|].
  rewrite async_set_percentage_patches.
  replace (fan.speed_of_percentage (s * 100 / 3)) with s; [done|].
  symmetry. apply speed_of_percentage_ceil. lia.
Qed.

(** X9, instance: 50 percent sends preset 2, which reads back as 66. *)
Lemma X9_percentage_read_back_witness :
  exists s,
    sent_patches (trace_of (fan.async_set_percentage (fan.__init__ scenario) 50))
      = [{[ "setVentilationPreset" := VDict {[ "value" := VInt s ]} ]}]
    /\ (DeviceState.data (DeviceState.mk scenario_state) !! "ventilationPreset"
          = Some (VInt s) ->
        exists p',
          fan.percentage (fan.__init__ scenario) = Ok p'
          /\ 50 <= p' <= 50 + 33
          /\ p' <= 100
          /\ sent_patches (trace_of (fan.async_set_percentage (fan.__init__ scenario) p'))
             = [{[ "setVentilationPreset" := VDict {[ "value" := VInt s ]} ]}]).
Proof.
  apply (X9_percentage_read_back (fan.__init__ scenario) (DeviceState.mk scenario_state) 50).
  - lia.
  - reflexivity.
Defined.

(** X10.  What the fan's [percentage] does with the stored preset: an
    integer preset [s] gives [s * 100 / 3] rounded down, which lies in
    0..100 exactly for presets 0..3 and is 0 exactly for preset 0; a null
    preset or a string raises [TypeError]; before any snapshot is stored
    the read raises [AttributeError]. *)
Theorem X10_percentage_of_stored_preset (self : fan.ZehnderCloudFan) :
  (forall st s,
     coordinator.state (fan.coordinator self) = Ok st ->
     DeviceState.data st !! "ventilationPreset" = Some (VInt s) ->
     fan.percentage self = Ok (s * 100 / 3)
     /\ (0 <= s * 100 / 3 <= 100 <-> 0 <= s <= 3)
     /\ (s * 100 / 3 = 0 <-> s = 0))
  /\ (forall st v,
        coordinator.state (fan.coordinator self) = Ok st ->
        DeviceState.data st !! "ventilationPreset" = Some v ->
        v = VNone \/ (exists t, v = VStr t) ->
        exists msg, fan.percentage self = Raise (TypeError msg))
  /\ (coordinator.data (fan.coordinator self) = None ->
      exists msg, fan.percentage self = Raise (AttributeError msg)).
Proof.
  split; [|split].
  - intros st s Hst Hs. split; [by apply (percentage_of_preset self st)|].
    pose proof (Z.div_mod (s * 100) 3 ltac:(lia)) as Hdm.
    pose proof (Z.mod_pos_bound (s * 100) 3 ltac:(lia)) as Hb.
    split; split; intros; lia.
  - intros st v Hst Hv Hkind. unfold fan.percentage, state_value. rewrite Hst. cbn.
    unfold DeviceState.value. rewrite Hv. cbn.
    destruct Hkind as [-> | [t ->]]; by eexists.
  - intros Hnone. unfold fan.percentage, state_value, coordinator.state.
    rewrite Hnone. cbn. by eexists.
Qed.

(** X10, instance: the away preset 0 reads as 0 percent, preset 4 as 133. *)
Lemma X10_percentage_of_stored_preset_witness :
  fan.percentage (fan.__init__ (holding {[ "ventilationPreset" := VInt 0 ]})) = Ok 0
  /\ fan.percentage (fan.__init__ (holding {[ "ventilationPreset" := VInt 4 ]})) = Ok 133
  /\ exists msg,
       fan.percentage (fan.__init__ (holding {[ "ventilationPreset" := VStr "2" ]}))
       = Raise (TypeError msg).
Proof.
  split; [|split].
  - apply (proj1 (X10_percentage_of_stored_preset
                    (fan.__init__ (holding {[ "ventilationPreset" := VInt 0 ]})))
             (DeviceState.mk {[ "ventilationPreset" := VInt 0 ]}) 0);
      reflexivity.
  - apply (proj1 (X10_percentage_of_stored_preset
                    (fan.__init__ (holding {[ "ventilationPreset" := VInt 4 ]})))
             (DeviceState.mk {[ "ventilationPreset" := VInt 4 ]}) 4);
      reflexivity.
  - apply (proj1 (proj2 (X10_percentage_of_stored_preset
                    (fan.__init__ (holding {[ "ventilationPreset" := VStr "2" ]}))))
             (DeviceState.mk {[ "ventilationPreset" := VStr "2" ]}) (VStr "2"));
      [reflexivity | reflexivity | right; by exists "2"].
Defined.

(** ** The descriptor tables beyond a missing key *)

(** X11.  A binary sensor whose key is present never fails: it is on
    exactly when [bool()] of the stored value is true.  So a null value
    reads as off, and any non-empty string, "False" included, reads as on. *)
Theorem X11_binary_sensor_is_truthiness (c : coordinator.ZehnderCloudUpdateCoordinator) (d : binary_sensor.ZehnderCloudBinarySensorEntityDescription) (v : PyVal) :
  In d binary_sensor.SENSORS ->
  state_value c (binary_sensor.key d) = Ok v ->
  binary_sensor.is_on (binary_sensor.__init__ c d) = Ok (builtins.bool v)
  /\ (v = VNone -> binary_sensor.is_on (binary_sensor.__init__ c d) = Ok false)
  /\ (forall s, v = VStr s -> s <> EmptyString ->
        binary_sensor.is_on (binary_sensor.__init__ c d) = Ok true).
Proof.
  intros Hd Hv.
  assert (binary_sensor.is_on (binary_sensor.__init__ c d) = Ok (builtins.bool v)) as E.
  { cbn in Hd.
    repeat (destruct Hd as [<- | Hd]; [unfold binary_sensor.is_on; cbn in *; by rewrite Hv|]).
    done. }
  rewrite E. split; [done|]. split; [by intros ->|].
  intros s -> Hs. cbn. by destruct s.
Qed.

(** X11, instance: the string "False" under "awayEnabled" reads as on. *)
Lemma X11_binary_sensor_is_truthiness_witness :
  binary_sensor.is_on
    (binary_sensor.__init__ (holding {[ "awayEnabled" := VStr "False" ]})
       (binary_sensor.Description "awayEnabled" "Away mode" true
          (fun c => v ← state_value c "awayEnabled"; mret (builtins.bool v))))
  = Ok true.
Proof.
  apply (proj2 (proj2 (X11_binary_sensor_is_truthiness
                         (holding {[ "awayEnabled" := VStr "False" ]})
                         (binary_sensor.Description "awayEnabled" "Away mode" true
                            (fun c => v ← state_value c "awayEnabled"; mret (builtins.bool v)))
                         (VStr "False")
                         ltac:(left; reflexivity) ltac:(reflexivity)))
           "False").
  - reflexivity.
  - discriminate.
Defined.

(** X12.  A sensor read fails in three ways only: with the exception of
    the lookup of its own key; for the descriptions that convert, with the
    exception [int()] raises on the stored value; and, for the four that
    divide by 10, with [OverflowError] when the quotient is beyond the float
    range, which takes a raw value of magnitude [2 ^ 53] at least.  The
    pass-through descriptions therefore never fail on a present key. *)
Theorem X12_sensor_failures (c : coordinator.ZehnderCloudUpdateCoordinator) (d : sensor.ZehnderCloudSensorEntityDescription) (ex : PyExc) :
  In d sensor.SENSORS ->
  sensor.native_value (sensor.__init__ c d) = Raise ex ->
  state_value c (sensor.key d) = Raise ex
  \/ (exists v,
        state_value c (sensor.key d) = Ok v
        /\ builtins.int v = Raise ex
        /\ ~ In (sensor.key d) passthrough_keys)
  \/ (exists v n,
        state_value c (sensor.key d) = Ok v
        /\ builtins.int v = Ok n
        /\ In (sensor.key d) scaled_keys
        /\ builtins.binary64_div n 10 = None
        /\ 2 ^ 53 <= Z.abs n
        /\ ex = OtherException "OverflowError" "integer division result too large for a float").
Proof.
  intros Hd. cbn in Hd.
  repeat (destruct Hd as [<- | Hd];
    [ unfold sensor.native_value; cbn;
      destruct (state_value c _) as [v|ex'] eqn:Hv; cbn; [|by left];
      first
        [ done
        | destruct (builtins.int v) as [n|ex'] eqn:Hn; cbn;
          [ first
              [ done
              | rewrite ?truediv_by_10;
                destruct (builtins.binary64_div n 10) as [q|] eqn:Hq; [done|];
                intros [= <-]; right; right; exists v, n;
                (split; [done|]); (split; [done|]); (split; [cbn; tauto|]);
                (split; [done|]); (split; [|done]);
                destruct (Z.lt_ge_cases (Z.abs n) (2 ^ 53)) as [Hlt|Hge]; [|done];
                destruct (binary64_div_10 n Hlt) as (q & m & P & Hsome & _);
                by rewrite Hsome in Hq ]
          | intros [= <-]; right; left; exists v; (split; [done|]); (split; [done|]);
            cbn; intros Hin; repeat (destruct Hin as [Hin|Hin]; [discriminate Hin|]); done ] ]
    | ]).
  done.
Qed.

(** X12, instance: a humidity given as the string "n/a". *)
Lemma X12_sensor_failures_witness :
  state_value (holding {[ "exhaustAirHumidity" := VStr "n/a" ]}) "exhaustAirHumidity"
    = Raise (ValueError "invalid literal for int() with base 10")
  \/ (exists v,
        state_value (holding {[ "exhaustAirHumidity" := VStr "n/a" ]}) "exhaustAirHumidity" = Ok v
        /\ builtins.int v = Raise (ValueError "invalid literal for int() with base 10")
        /\ ~ In "exhaustAirHumidity" passthrough_keys)
  \/ (exists v n,
        state_value (holding {[ "exhaustAirHumidity" := VStr "n/a" ]}) "exhaustAirHumidity" = Ok v
        /\ builtins.int v = Ok n
        /\ In "exhaustAirHumidity" scaled_keys
        /\ builtins.binary64_div n 10 = None
        /\ 2 ^ 53 <= Z.abs n
        /\ ValueError "invalid literal for int() with base 10"
           = OtherException "OverflowError" "integer division result too large for a float").
Proof.
  apply (X12_sensor_failures
           (holding {[ "exhaustAirHumidity" := VStr "n/a" ]})
           (sensor.Description "exhaustAirHumidity" "Exhaust air humidity" true
              (fun c => v ← state_value c "exhaustAirHumidity"; n ← builtins.int v; mret (VInt n)))
           (ValueError "invalid literal for int() with base 10")).
  - right. left. reflexivity.
  - reflexivity.
Defined.

(** X13.  The converting sensors see the stored value only through
    [int()]: two stored values with the same [int()] read the same,
    whether the number came as an int, a float, a boolean or a numeric
    string.  The pass-through sensors return the stored value itself. *)
Theorem X13_sensor_value_through_int (c1 c2 : coordinator.ZehnderCloudUpdateCoordinator) (d : sensor.ZehnderCloudSensorEntityDescription) (v1 v2 : PyVal) :
  In d sensor.SENSORS ->
  state_value c1 (sensor.key d) = Ok v1 ->
  state_value c2 (sensor.key d) = Ok v2 ->
  (In (sensor.key d) passthrough_keys ->
   sensor.native_value (sensor.__init__ c1 d) = Ok v1)
  /\ (~ In (sensor.key d) passthrough_keys ->
      builtins.int v1 = builtins.int v2 ->
      sensor.native_value (sensor.__init__ c1 d) = sensor.native_value (sensor.__init__ c2 d)).
Proof.
  intros Hd. cbn in Hd.
  repeat (destruct Hd as [<- | Hd];
    [ unfold sensor.native_value; cbn; intros Hv1 Hv2; rewrite Hv1, Hv2; cbn;
      split;
      [ try done;
        intros Hin; exfalso; cbn in Hin;
        repeat (destruct Hin as [Hin|Hin]; [discriminate Hin|]); done
      | intros Hnot Hint; try (by rewrite Hint);
        exfalso; apply Hnot; cbn; tauto ]
    | ]).
  done.
Qed.

(** X13, instance: the filter duration "129" given as a string reads as
    the int 129 does. *)
Lemma X13_sensor_value_through_int_witness :
  sensor.native_value
    (sensor.__init__ (holding {[ "remainingFilterDuration" := VStr "129" ]})
       (sensor.Description "remainingFilterDuration" "Days to replace filter" true
          (fun c => v ← state_value c "remainingFilterDuration"; n ← builtins.int v;
                    mret (VInt n))))
  = sensor.native_value
      (sensor.__init__ (holding {[ "remainingFilterDuration" := VInt 129 ]})
         (sensor.Description "remainingFilterDuration" "Days to replace filter" true
            (fun c => v ← state_value c "remainingFilterDuration"; n ← builtins.int v;
                      mret (VInt n)))).
Proof.
  apply (proj2 (X13_sensor_value_through_int
                  (holding {[ "remainingFilterDuration" := VStr "129" ]})
                  (holding {[ "remainingFilterDuration" := VInt 129 ]})
                  (sensor.Description "remainingFilterDuration" "Days to replace filter" true
                     (fun c => v ← state_value c "remainingFilterDuration"; n ← builtins.int v;
                               mret (VInt n)))
                  (VStr "129") (VInt 129)
                  ltac:(do 23 right; left; reflexivity)
                  ltac:(reflexivity) ltac:(reflexivity))).
  - cbn. intros Hin. repeat (destruct Hin as [Hin|Hin]; [discriminate Hin|]). exact Hin.
  - reflexivity.
Defined.

(** ** Entities of a platform and their unique ids *)

Lemma pretty_N_go_no_underscore (x : N) :
  forall s, no_underscore s -> no_underscore (pretty_N_go x s).
Proof.
  induction (N.lt_wf_0 x) as [x _ IH]. intros s Hs.
  destruct (decide (x = 0)%N) as [->|Hx]; [by rewrite pretty_N_go_0|].
  rewrite pretty_N_go_step by lia.
  apply IH; [apply N.div_lt; lia|].
  split; [|done]. unfold pretty_N_char. by repeat case_match.
Qed.

Lemma pretty_Z_no_underscore (x : Z) : no_underscore (pretty x).
Proof.
  assert (forall p : positive, no_underscore (pretty p)) as Hpos.
  { intros p. unfold pretty, pretty_positive, pretty, pretty_N.
    case_decide; [by cbn|]. by apply pretty_N_go_no_underscore. }
  destruct x as [|p|p]; [by cbn | apply Hpos |].
  unfold pretty, pretty_Z. cbn. split; [done|]. apply Hpos.
Qed.

Lemma append_underscore_inj (u : string) :
  forall v k1 k2,
    no_underscore u -> no_underscore v ->
    u +:+ String "_" k1 = v +:+ String "_" k2 ->
    u = v /\ k1 = k2.
Proof.
  induction u as [|c u IH]; intros [|c' v] k1 k2 Hu Hv E; cbn in *.
  - by injection E as ->.
  - injection E as <- _. by destruct Hv.
  - injection E as -> _. by destruct Hu.
  - injection E as -> E. destruct Hu as [_ Hu], Hv as [_ Hv].
    by destruct (IH v k1 k2 Hu Hv E) as [-> ->].
Qed.

Lemma unique_id_inj (a b : Z) (k1 k2 : string) :
  pretty a +:+ "_" +:+ k1 = pretty b +:+ "_" +:+ k2 -> a = b /\ k1 = k2.
Proof.
  intros E.
  apply append_underscore_inj in E as [E ->]; [|apply pretty_Z_no_underscore..].
  split; [|done]. by apply (inj pretty).
Qed.

Lemma NoDup_fmap_inj_on {A B} (f : A -> B) (l : list A) :
  NoDup (f <$> l) -> forall x y, x ∈ l -> y ∈ l -> f x = f y -> x = y.
Proof.
  induction l as [|a l IH]; intros Hnd x y Hx Hy E; [by inv Hx|].
  cbn in Hnd. apply NoDup_cons in Hnd as [Hnotin Hnd].
  inv Hx; inv Hy; try done.
  - exfalso. apply Hnotin. rewrite E. by apply list_elem_of_fmap_2.
  - exfalso. apply Hnotin. rewrite <- E. by apply list_elem_of_fmap_2.
  - by apply IH.
Qed.

(** One id per description and coordinator, description-major. *)
Lemma NoDup_ids_of_product {D C} (kd : D -> string) (ic : C -> Z) (ds : list D) (cs : list C) :
  NoDup (kd <$> ds) -> NoDup (ic <$> cs) ->
  NoDup (d ← ds; c ← cs; [pretty (ic c) +:+ "_" +:+ kd d]).
Proof.
  intros Hds Hcs. apply NoDup_bind.
  - intros d1 d2 y Hd1 Hd2 Hy1 Hy2.
    apply list_elem_of_bind in Hy1 as (c1 & Hy1 & _).
    apply list_elem_of_bind in Hy2 as (c2 & Hy2 & _).
    apply list_elem_of_singleton in Hy1, Hy2. subst y.
    apply unique_id_inj in Hy2 as [_ Hk].
    by apply (NoDup_fmap_inj_on kd ds).
  - intros d _. apply NoDup_bind.
    + intros c1 c2 y Hc1 Hc2 Hy1 Hy2.
      apply list_elem_of_singleton in Hy1, Hy2. subst y.
      apply unique_id_inj in Hy2 as [Hid _].
      by apply (NoDup_fmap_inj_on ic cs).
    + intros c _. apply NoDup_singleton.
    + by apply (NoDup_fmap_1 ic).
  - by apply (NoDup_fmap_1 kd).
Qed.

Lemma fmap_bind_bind {D C E S} (mk : C -> D -> E) (uid : E -> S) (ds : list D) (cs : list C) :
  uid <$> (d ← ds; c ← cs; [mk c d]) = d ← ds; c ← cs; [uid (mk c d)].
Proof.
  induction ds as [|d ds IH]; [done|].
  rewrite !bind_cons, fmap_app, IH. f_equal.
  clear IH. induction cs as [|c cs IH]; [done|].
  by rewrite !bind_cons, fmap_app, IH.
Qed.

Lemma length_bind_bind {D C E} (mk : C -> D -> E) (ds : list D) (cs : list C) :
  length (d ← ds; c ← cs; [mk c d]) = (length ds * length cs)%nat.
Proof.
  induction ds as [|d ds IH]; [done|].
  rewrite bind_cons, length_app, IH. cbn [length Nat.mul]. f_equal.
  clear IH. induction cs as [|c cs IH]; [done|].
  rewrite bind_cons, length_app, IH. done.
Qed.

Lemma sensor_keys_NoDup : NoDup (sensor.key <$> sensor.SENSORS).
Proof. compute_done. Qed.

Lemma binary_sensor_keys_NoDup : NoDup (binary_sensor.key <$> binary_sensor.SENSORS).
Proof. compute_done. Qed.

(** X14.  Every platform creates one entity per description and
    coordinator (24 sensors, 8 binary sensors, one select and one fan per
    device), and when the coordinators have pairwise different device ids
    the unique ids of a platform's entities are pairwise different. *)
Theorem X14_unique_ids_distinct (coordinators : list coordinator.ZehnderCloudUpdateCoordinator) :
  NoDup (map coordinator.device_id coordinators) ->
  (NoDup (map sensor_unique_id (sensor.async_setup_entry coordinators))
   /\ NoDup (map binary_sensor_unique_id (binary_sensor.async_setup_entry coordinators))
   /\ NoDup (map select_unique_id (select.async_setup_entry coordinators))
   /\ NoDup (map fan_unique_id (fan_async_setup_entry coordinators)))
  /\ (length (sensor.async_setup_entry coordinators) = (24 * length coordinators)%nat
      /\ length (binary_sensor.async_setup_entry coordinators) = (8 * length coordinators)%nat
      /\ length (select.async_setup_entry coordinators) = length coordinators
      /\ length (fan_async_setup_entry coordinators) = length coordinators).
Proof.
  intros Hids. split; [split; [|split; [|split]] | split; [|split; [|split]]].
  - unfold sensor.async_setup_entry.
    change (map sensor_unique_id) with (fmap (M := list) sensor_unique_id).
    rewrite (fmap_bind_bind sensor.__init__ sensor_unique_id).
    by apply (NoDup_ids_of_product sensor.key coordinator.device_id), Hids;
      apply sensor_keys_NoDup.
  - unfold binary_sensor.async_setup_entry.
    change (map binary_sensor_unique_id) with (fmap (M := list) binary_sensor_unique_id).
    rewrite (fmap_bind_bind binary_sensor.__init__ binary_sensor_unique_id).
    by apply (NoDup_ids_of_product binary_sensor.key coordinator.device_id), Hids;
      apply binary_sensor_keys_NoDup.
  - unfold select.async_setup_entry.
    change (map select_unique_id) with (fmap (M := list) select_unique_id).
    rewrite (fmap_bind_bind select.__init__ select_unique_id).
    apply (NoDup_ids_of_product select.key coordinator.device_id); [|done].
    compute_done.
  - unfold fan_async_setup_entry.
    pose proof (NoDup_ids_of_product (fun _ : unit => "fan") coordinator.device_id
                  [tt] coordinators (NoDup_singleton _) Hids) as Hfan.
    rewrite bind_singleton in Hfan.
    change (map fan_unique_id) with (fmap (M := list) fan_unique_id).
    replace (fan_unique_id <$> (coordinators ≫= λ c, [fan.__init__ c]))
      with (coordinators ≫= λ c, [pretty (coordinator.device_id c) +:+ "_" +:+ "fan"]);
      [done|].
    clear. induction coordinators as [|c cs IH]; [done|].
    by rewrite !bind_cons, fmap_app, IH.
  - unfold sensor.async_setup_entry. by rewrite length_bind_bind.
  - unfold binary_sensor.async_setup_entry. by rewrite length_bind_bind.
  - unfold select.async_setup_entry. rewrite length_bind_bind. cbn. lia.
  - unfold fan_async_setup_entry.
    induction coordinators as [|c cs IH]; [done|].
    apply NoDup_cons in Hids as [_ Hids].
    rewrite bind_cons, length_app, (IH Hids). done.
Qed.

(** X14, instance: devices 7 and 12. *)
Lemma X14_unique_ids_distinct_witness :
  let cs := [coordinator.__init__ (mock_api (Ok healthy_state) (Ok healthy_details)) 7;
             coordinator.__init__ (mock_api (Ok healthy_state) (Ok healthy_details)) 12] in
  NoDup (map fan_unique_id (fan_async_setup_entry cs))
  /\ map fan_unique_id (fan_async_setup_entry cs) = ["7_fan"; "12_fan"]
  /\ length (sensor.async_setup_entry cs) = 48%nat.
Proof.
  intros cs.
  pose proof (X14_unique_ids_distinct cs) as Hx.
  destruct Hx as [(_ & _ & _ & Hfan) (Hlen & _)].
  - compute_done.
  - split; [exact Hfan|]. split; [reflexivity | exact Hlen].
Defined.

(** ** Setup and unload of a config entry *)

Lemma exec_bind {A B} (h : HostIO A) (f : A -> HostIO B) w :
  exec (h ≫= f) w =
    match exec h w with
    | (w', Ok a) => exec (f a) w'
    | (w', Raise ex) => (w', Raise ex)
    end.
Proof. reflexivity. Qed.

Lemma exec_hlift_api {A} (m : M A) w :
  exec (hlift_api m) w
  = (mkWorld (calls w ++ map HostApi (trace_of m))%list (hass_data w), result_of m).
Proof. unfold hlift_api, trace_of, result_of. cbn. by destruct (run m []). Qed.

Lemma exec_setup_coordinators_return (host : zehndercloud.Host) devices :
  forall coordinators acc w,
    first_refreshes_return host devices coordinators ->
    exec (zehndercloud.setup_coordinators host devices acc) w
    = (mkWorld (calls w ++ refresh_calls host devices)%list (hass_data w),
       Ok (acc ++ coordinators)%list).
Proof.
  unfold first_refreshes_return, refresh_calls.
  induction devices as [|device_id rest IH]; intros coordinators acc w Hall.
  - inv Hall. cbn. rewrite !app_nil_r. by destruct w.
  - inv Hall. cbn [zehndercloud.setup_coordinators].
    rewrite exec_bind, exec_hlift_api.
    match goal with H : result_of _ = Ok _ |- _ => rewrite H end.
    rewrite (IH _ _ _ ltac:(eassumption)). cbn.
    by rewrite <- !app_assoc.
Qed.

Lemma exec_setup_coordinators_raise (host : zehndercloud.Host) before :
  forall device_id rest coordinators acc w ex,
    first_refreshes_return host before coordinators ->
    result_of (zehndercloud.first_refresh host
                 (coordinator.__init__ (zehndercloud.api host) device_id)) = Raise ex ->
    exec (zehndercloud.setup_coordinators host (before ++ device_id :: rest)%list acc) w
    = (mkWorld (calls w ++ refresh_calls host (before ++ [device_id]))%list (hass_data w),
       Raise ex).
Proof.
  unfold first_refreshes_return, refresh_calls.
  induction before as [|d before IH]; intros device_id rest coordinators acc w ex Hall Hex.
  - cbn [app zehndercloud.setup_coordinators].
    rewrite exec_bind, exec_hlift_api, Hex. cbn. by rewrite app_nil_r.
  - inv Hall. cbn [app zehndercloud.setup_coordinators].
    rewrite exec_bind, exec_hlift_api.
    match goal with H : result_of _ = Ok _ |- _ => rewrite H end.
    rewrite (IH _ _ _ _ _ _ ltac:(eassumption) Hex). cbn.
    by rewrite <- !app_assoc.
Qed.

Lemma exec_async_setup_entry (host : zehndercloud.Host) (entry : ConfigEntry) (w : World) :
  exec (zehndercloud.async_setup_entry host entry) w =
    let w1 := mkWorld (calls w ++ [HostRegisterImplementation None;
                                   HostGetConfigEntryImplementation (entry_id entry)])%list
                (hass_data w) in
    match zehndercloud.implementation host with
    | Raise ex => (w1, Raise ex)
    | Ok _ =>
        let w2 := mkWorld (calls w1 ++ [HostGetDevices])%list (hass_data w) in
        match zehndercloud.devices host with
        | Raise ex =>
            (w2, Raise (if is_AuthError ex
                        then ConfigEntryAuthFailed "Credentials expired for Zehnder Cloud" ex
                        else ex))
        | Ok devices =>
            match exec (zehndercloud.setup_coordinators host devices []) w2 with
            | (w3, Raise ex) => (w3, Raise ex)
            | (w3, Ok coordinators) =>
                (mkWorld (calls w3 ++ [HostForwardEntrySetups (entry_id entry)
                                         [SENSOR; BINARY_SENSOR; FAN]])%list
                   (<[ "zehndercloud" :=
                         <[ entry_id entry := coordinators ]>
                           (default ∅ (hass_data w3 !! "zehndercloud")) ]> (hass_data w3)),
                 match zehndercloud.forward_entry_setups host with
                 | Ok _ => Ok true
                 | Raise ex => Raise ex
                 end)
            end
        end
    end.
Proof.
  unfold zehndercloud.async_setup_entry. cbn zeta.
  rewrite exec_bind. cbn [exec hemit]. rewrite exec_bind. cbn [exec hemit calls hass_data].
  rewrite <- app_assoc. cbn [app].
  rewrite exec_bind. cbn [exec hlift].
  destruct (zehndercloud.implementation host) as [u|e]; [|done].
  rewrite exec_bind. unfold htry_except at 1. cbn [exec].
  rewrite exec_bind. cbn [exec hemit calls hass_data].
  destruct (zehndercloud.devices host) as [devices|ex].
  - cbn [exec hlift]. rewrite exec_bind.
    destruct (exec (zehndercloud.setup_coordinators host devices []) _) as [w3 [cs|ex]]; [|done].
    rewrite exec_bind. cbn [exec get_hass_data]. rewrite exec_bind. cbn [exec set_hass_data].
    rewrite exec_bind. cbn [exec hemit calls hass_data]. rewrite exec_bind. cbn [exec hlift].
    by destruct (zehndercloud.forward_entry_setups host).
  - cbn [exec hlift]. by destruct (is_AuthError ex).
Qed.

(** X15.  When [get_devices] raises during setup, an [AuthError] is
    raised on as [ConfigEntryAuthFailed]; any other exception leaves setup
    as it is, not wrapped.  No coordinator has been created then: no device
    is polled, [hass.data] is untouched and no platform is forwarded. *)
Theorem X15_setup_get_devices_fails (host : zehndercloud.Host) (entry : ConfigEntry) (w : World) (ex : PyExc) :
  is_Ok (zehndercloud.implementation host) = true ->
  zehndercloud.devices host = Raise ex ->
  hresult (zehndercloud.async_setup_entry host entry) w
    = Raise (if is_AuthError ex
             then ConfigEntryAuthFailed "Credentials expired for Zehnder Cloud" ex
             else ex)
  /\ hdata (zehndercloud.async_setup_entry host entry) w = hass_data w
  /\ hcalls (zehndercloud.async_setup_entry host entry) w
     = (calls w ++ [HostRegisterImplementation None;
                    HostGetConfigEntryImplementation (entry_id entry);
                    HostGetDevices])%list.
Proof.
  intros Himpl Hdev.
  unfold hresult, hdata, hcalls. rewrite exec_async_setup_entry. cbn zeta.
  destruct (zehndercloud.implementation host) as [u|e]; [|done].
  rewrite Hdev. cbn. by rewrite <- !app_assoc.
Qed.

(** X15, instance: an expired token, and a connection error. *)
Lemma X15_setup_get_devices_fails_witness :
  hresult (zehndercloud.async_setup_entry
             (reference_host (mock_api (Ok healthy_state) (Ok healthy_details))
                (Raise (AuthError "token expired")))
             sample_entry) fresh_world
    = Raise (ConfigEntryAuthFailed "Credentials expired for Zehnder Cloud"
               (AuthError "token expired"))
  /\ hresult (zehndercloud.async_setup_entry
                (reference_host (mock_api (Ok healthy_state) (Ok healthy_details))
                   (Raise (OtherException "ClientConnectionError" "reset")))
                sample_entry) fresh_world
     = Raise (OtherException "ClientConnectionError" "reset").
Proof.
  split.
  - apply (X15_setup_get_devices_fails
             (reference_host (mock_api (Ok healthy_state) (Ok healthy_details))
                (Raise (AuthError "token expired")))
             sample_entry fresh_world (AuthError "token expired"));
      reflexivity.
  - apply (X15_setup_get_devices_fails
             (reference_host (mock_api (Ok healthy_state) (Ok healthy_details))
                (Raise (OtherException "ClientConnectionError" "reset")))
             sample_entry fresh_world (OtherException "ClientConnectionError" "reset"));
      reflexivity.
Defined.

(** X16.  When [get_devices] returns and the first refresh of every
    device returns, setup stores the refreshed coordinators, one per device
    in the order of the device list, under the entry's id in
    [hass.data["zehndercloud"]], leaving every other entry and every other
    domain as they were; the devices are refreshed one after the other in
    list order and then the platforms sensor, binary_sensor and fan (not
    select) are forwarded.  The coordinators are stored before the
    forwarding: they stay stored when it raises. *)
Theorem X16_setup_stores_coordinators (host : zehndercloud.Host) (entry : ConfigEntry) (w : World) (devices : list Z) (coordinators : list coordinator.ZehnderCloudUpdateCoordinator) :
  is_Ok (zehndercloud.implementation host) = true ->
  zehndercloud.devices host = Ok devices ->
  first_refreshes_return host devices coordinators ->
  let setup := zehndercloud.async_setup_entry host entry in
  hresult setup w
    = match zehndercloud.forward_entry_setups host with
      | Ok _ => Ok true
      | Raise ex => Raise ex
      end
  /\ hdata setup w
     = <[ "zehndercloud" :=
            <[ entry_id entry := coordinators ]> (default ∅ (hass_data w !! "zehndercloud")) ]>
         (hass_data w)
  /\ length coordinators = length devices
  /\ hcalls setup w
     = (calls w
        ++ [HostRegisterImplementation None;
            HostGetConfigEntryImplementation (entry_id entry);
            HostGetDevices]
        ++ refresh_calls host devices
        ++ [HostForwardEntrySetups (entry_id entry) [SENSOR; BINARY_SENSOR; FAN]])%list.
Proof.
  intros Himpl Hdev Hall setup. subst setup.
  unfold hresult, hdata, hcalls. rewrite exec_async_setup_entry. cbn zeta.
  destruct (zehndercloud.implementation host) as [u|e]; [|done].
  rewrite Hdev, (exec_setup_coordinators_return host devices coordinators [] _ Hall).
  cbn. rewrite <- !app_assoc. cbn.
  split; [done|]. split; [done|]. split; [|done].
  symmetry. apply (Forall2_length _ _ _ Hall).
Qed.

(** X16, instance: two devices, both answering. *)
Lemma X16_setup_stores_coordinators_witness :
  let host := reference_host (mock_api (Ok healthy_state) (Ok healthy_details)) (Ok [7; 12]) in
  hresult (zehndercloud.async_setup_entry host sample_entry) fresh_world = Ok true
  /\ map coordinator.device_id
       (default [] (default ∅ (hdata (zehndercloud.async_setup_entry host sample_entry)
                                 fresh_world !! "zehndercloud")
                    !! "entry-1"))
     = [7; 12]
  /\ hcalls (zehndercloud.async_setup_entry host sample_entry) fresh_world
     = [HostRegisterImplementation None;
        HostGetConfigEntryImplementation "entry-1";
        HostGetDevices;
        HostApi (EvGetDeviceState 7); HostApi (EvGetDeviceDetails 7);
        HostApi (EvGetDeviceState 12); HostApi (EvGetDeviceDetails 12);
        HostForwardEntrySetups "entry-1" [SENSOR; BINARY_SENSOR; FAN]].
Proof.
  intros host.
  pose proof (X16_setup_stores_coordinators host sample_entry fresh_world [7; 12]
                [after_refresh (coordinator.__init__ (zehndercloud.api host) 7);
                 after_refresh (coordinator.__init__ (zehndercloud.api host) 12)])
    as Hx.
  cbn zeta in Hx. destruct Hx as (Hres & Hdata & _ & Hcalls).
  - reflexivity.
  - reflexivity.
  - repeat constructor.
  - split; [exact Hres|]. split; [rewrite Hdata; reflexivity | exact Hcalls].
Defined.

(** X17.  When the first refresh of a device raises, setup raises that
    exception at once: the devices after it in the list are never polled,
    nothing is written to [hass.data] (the coordinators already refreshed
    are dropped) and no platform is forwarded. *)
Theorem X17_setup_stops_at_failed_refresh (host : zehndercloud.Host) (entry : ConfigEntry) (w : World) (before rest : list Z) (device_id : Z) (coordinators : list coordinator.ZehnderCloudUpdateCoordinator) (ex : PyExc) :
  is_Ok (zehndercloud.implementation host) = true ->
  zehndercloud.devices host = Ok (before ++ device_id :: rest)%list ->
  first_refreshes_return host before coordinators ->
  result_of (zehndercloud.first_refresh host
               (coordinator.__init__ (zehndercloud.api host) device_id)) = Raise ex ->
  hresult (zehndercloud.async_setup_entry host entry) w = Raise ex
  /\ hdata (zehndercloud.async_setup_entry host entry) w = hass_data w
  /\ hcalls (zehndercloud.async_setup_entry host entry) w
     = (calls w
        ++ [HostRegisterImplementation None;
            HostGetConfigEntryImplementation (entry_id entry);
            HostGetDevices]
        ++ refresh_calls host (before ++ [device_id]))%list.
Proof.
  intros Himpl Hdev Hall Hex.
  unfold hresult, hdata, hcalls. rewrite exec_async_setup_entry. cbn zeta.
  destruct (zehndercloud.implementation host) as [u|e]; [|done].
  rewrite Hdev, (exec_setup_coordinators_raise host before _ _ coordinators [] _ ex Hall Hex).
  cbn. by rewrite <- !app_assoc.
Qed.

(** X17, instance: of three devices the second answers with an expired
    token; the third is never asked. *)
Lemma X17_setup_stops_at_failed_refresh_witness :
  let api := {| get_device_state := fun device_id =>
                  {| elapsed := 0;
                     outcome := if device_id =? 12 then Raise (AuthError "token expired")
                                else Ok healthy_state |};
                get_device_details := fun _ => {| elapsed := 0; outcome := Ok healthy_details |};
                set_device_settings := fun _ _ => {| elapsed := 0; outcome := Ok tt |} |} in
  let host := reference_host api (Ok [7; 12; 30]) in
  hresult (zehndercloud.async_setup_entry host sample_entry) fresh_world
    = Raise (ConfigEntryAuthFailed "Credentials expired for Zehnder Cloud"
               (AuthError "token expired"))
  /\ hdata (zehndercloud.async_setup_entry host sample_entry) fresh_world = ∅
  /\ hcalls (zehndercloud.async_setup_entry host sample_entry) fresh_world
     = [HostRegisterImplementation None;
        HostGetConfigEntryImplementation "entry-1";
        HostGetDevices;
        HostApi (EvGetDeviceState 7); HostApi (EvGetDeviceDetails 7);
        HostApi (EvGetDeviceState 12)].
Proof.
  intros api host.
  apply (X17_setup_stops_at_failed_refresh host sample_entry fresh_world [7] [30] 12
           [after_refresh (coordinator.__init__ api 7)]).
  - reflexivity.
  - reflexivity.
  - repeat constructor.
  - reflexivity.
Defined.

Lemma exec_async_unload_entry (host : zehndercloud.Host) (entry : ConfigEntry) (w : World) :
  exec (zehndercloud.async_unload_entry host entry) w =
    let w1 := mkWorld (calls w ++ [HostUnloadPlatforms (entry_id entry)
                                     [SENSOR; BINARY_SENSOR; FAN]])%list
                (hass_data w) in
    match zehndercloud.unload_platforms host with
    | Raise ex => (w1, Raise ex)
    | Ok false => (w1, Ok false)
    | Ok true =>
        match hass_data w !! "zehndercloud" with
        | None => (w1, Raise (KeyError "zehndercloud"))
        | Some entries =>
            match entries !! entry_id entry with
            | None => (w1, Raise (KeyError (entry_id entry)))
            | Some _ =>
                (mkWorld (calls w1)
                   (<[ "zehndercloud" := delete (entry_id entry) entries ]> (hass_data w)),
                 Ok true)
            end
        end
    end.
Proof.
  unfold zehndercloud.async_unload_entry. cbn zeta.
  rewrite exec_bind. cbn [exec hemit]. rewrite exec_bind. cbn [exec hlift].
  destruct (zehndercloud.unload_platforms host) as [[|]|ex]; [| done | done].
  rewrite exec_bind, exec_bind. cbn [exec get_hass_data hass_data].
  unfold const.DOMAIN.
  destruct (hass_data w !! "zehndercloud") as [entries|]; [|done].
  by destruct (entries !! entry_id entry).
Qed.

(** X18.  Unloading an entry: when the platforms do not unload (or
    unloading raises) [hass.data] is left alone and the answer is passed
    on; when they unload, the entry's coordinators are removed from
    [hass.data["zehndercloud"]] and nothing else is, and an entry that was
    never stored makes the removal raise [KeyError]. *)
Theorem X18_unload_removes_entry (host : zehndercloud.Host) (entry : ConfigEntry) (w : World) :
  let unload := zehndercloud.async_unload_entry host entry in
  (forall ex, zehndercloud.unload_platforms host = Raise ex ->
     hresult unload w = Raise ex /\ hdata unload w = hass_data w)
  /\ (zehndercloud.unload_platforms host = Ok false ->
      hresult unload w = Ok false /\ hdata unload w = hass_data w)
  /\ (zehndercloud.unload_platforms host = Ok true ->
      (forall entries coordinators,
         hass_data w !! "zehndercloud" = Some entries ->
         entries !! entry_id entry = Some coordinators ->
         hresult unload w = Ok true
         /\ hdata unload w !! "zehndercloud" = Some (delete (entry_id entry) entries)
         /\ (forall other, other <> entry_id entry ->
               delete (entry_id entry) entries !! other = entries !! other)
         /\ (forall domain, domain <> "zehndercloud" ->
               hdata unload w !! domain = hass_data w !! domain))
      /\ (hass_data w !! "zehndercloud" = None ->
          hresult unload w = Raise (KeyError "zehndercloud") /\ hdata unload w = hass_data w)
      /\ (forall entries,
            hass_data w !! "zehndercloud" = Some entries ->
            entries !! entry_id entry = None ->
            hresult unload w = Raise (KeyError (entry_id entry))
            /\ hdata unload w = hass_data w)).
Proof.
  cbn zeta. unfold hresult, hdata. rewrite exec_async_unload_entry. cbn zeta.
  split; [|split].
  - by intros ex ->.
  - by intros ->.
  - intros ->. split; [|split].
    + intros entries coordinators -> ->. cbn.
      split; [done|]. split; [by rewrite lookup_insert_eq|].
      split; [intros other Hne; by rewrite lookup_delete_ne|].
      intros domain Hne. by rewrite lookup_insert_ne.
    + by intros ->.
    + by intros entries -> ->.
Qed.

(** X18, instance: unloading an entry that was never set up. *)
Lemma X18_unload_removes_entry_witness :
  hresult (zehndercloud.async_unload_entry
             (reference_host (mock_api (Ok healthy_state) (Ok healthy_details)) (Ok [7]))
             sample_entry) fresh_world
  = Raise (KeyError "zehndercloud").
Proof.
  pose proof (X18_unload_removes_entry
                (reference_host (mock_api (Ok healthy_state) (Ok healthy_details)) (Ok [7]))
                sample_entry fresh_world) as Hx.
  cbn zeta in Hx. destruct Hx as (_ & _ & Hx).
  destruct (Hx eq_refl) as (_ & Hmissing & _).
  apply Hmissing. reflexivity.
Defined.

(** X19.  Setup followed by unload: after a setup that stored the
    entry's coordinators, an unload whose platforms unload returns [True]
    and leaves [hass.data["zehndercloud"]] as it was before the setup, less
    the entry.  If the domain held other entries before, [hass.data] is
    exactly as before; if the domain was absent before, it stays behind
    with an empty mapping. *)
Theorem X19_setup_then_unload (host : zehndercloud.Host) (entry : ConfigEntry) (w : World) (devices : list Z) (coordinators : list coordinator.ZehnderCloudUpdateCoordinator) :
  is_Ok (zehndercloud.implementation host) = true ->
  zehndercloud.devices host = Ok devices ->
  first_refreshes_return host devices coordinators ->
  zehndercloud.unload_platforms host = Ok true ->
  let w' := fst (exec (zehndercloud.async_setup_entry host entry) w) in
  let unload := zehndercloud.async_unload_entry host entry in
  hresult unload w' = Ok true
  /\ hdata unload w'
     = <[ "zehndercloud" := delete (entry_id entry) (default ∅ (hass_data w !! "zehndercloud")) ]>
         (hass_data w)
  /\ (forall entries,
        hass_data w !! "zehndercloud" = Some entries ->
        entries !! entry_id entry = None ->
        hdata unload w' = hass_data w)
  /\ (hass_data w !! "zehndercloud" = None ->
      hdata unload w' !! "zehndercloud" = Some ∅).
Proof.
  intros Himpl Hdev Hall Hunload w' unload.
  assert (hass_data w'
          = <[ "zehndercloud" :=
                 <[ entry_id entry := coordinators ]> (default ∅ (hass_data w !! "zehndercloud")) ]>
              (hass_data w)) as Hw'.
  { subst w'. rewrite exec_async_setup_entry. cbn zeta.
    destruct (zehndercloud.implementation host) as [u|e]; [|done].
    by rewrite Hdev, (exec_setup_coordinators_return host devices coordinators [] _ Hall). }
  subst unload. unfold hresult, hdata. rewrite exec_async_unload_entry. cbn zeta.
  rewrite Hunload, Hw', lookup_insert_eq, lookup_insert_eq. cbn.
  rewrite insert_insert_eq, delete_insert_eq.
  split; [done|]. split; [done|]. split.
  - intros entries Hentries Hnone. rewrite Hentries. cbn.
    rewrite delete_id by done. by apply insert_id.
  - intros Hnone. rewrite Hnone. cbn. by rewrite lookup_insert_eq, delete_empty.
Qed.

(** X19, instance: a fresh [hass.data]; the domain key stays behind. *)
Lemma X19_setup_then_unload_witness :
  let host := reference_host (mock_api (Ok healthy_state) (Ok healthy_details)) (Ok [7; 12]) in
  let w' := fst (exec (zehndercloud.async_setup_entry host sample_entry) fresh_world) in
  hresult (zehndercloud.async_unload_entry host sample_entry) w' = Ok true
  /\ hdata (zehndercloud.async_unload_entry host sample_entry) w' !! "zehndercloud" = Some ∅.
Proof.
  intros host w'.
  pose proof (X19_setup_then_unload host sample_entry fresh_world [7; 12]
                [after_refresh (coordinator.__init__ (zehndercloud.api host) 7);
                 after_refresh (coordinator.__init__ (zehndercloud.api host) 12)])
    as Hx.
  cbn zeta in Hx. destruct Hx as (Hres & _ & _ & Hempty).
  - reflexivity.
  - reflexivity.
  - repeat constructor.
  - reflexivity.
  - split; [exact Hres|]. apply Hempty. reflexivity.
Defined.

(** ** The config flow *)

(** X20.  The user step allows a single entry: when the host reports an
    existing entry of the domain, the step aborts with
    "single_instance_allowed" having registered no OAuth implementation and
    without entering the parent's step; with no entry it registers an
    implementation carrying the flow's own code verifier and then answers
    what the parent's step answers. *)
Theorem X20_user_step_single_instance (self : config_flow.ZehnderCloudControlFlowHandler) (user_input : option (gmap string PyVal)) (w : World) :
  is_Ok (config_flow.set_unique_id (config_flow.host self)) = true ->
  let step := config_flow.async_step_user self user_input in
  (config_flow.current_entries (config_flow.host self) <> [] ->
   hresult step w = Ok (config_flow.FlowAbort "single_instance_allowed")
   /\ hcalls step w = (calls w ++ [HostSetUniqueId "zehndercloud"])%list)
  /\ (config_flow.current_entries (config_flow.host self) = [] ->
      hresult step w = config_flow.super_async_step_user (config_flow.host self) user_input
      /\ hcalls step w
         = (calls w ++ [HostSetUniqueId "zehndercloud";
                        HostRegisterImplementation (Some (config_flow.code_verifier self));
                        HostSuperStepUser user_input])%list).
Proof.
  intros Hid step. subst step.
  unfold hresult, hcalls, config_flow.async_step_user.
  rewrite exec_bind. cbn [exec hemit]. rewrite exec_bind. cbn [exec hlift].
  destruct (config_flow.set_unique_id _) as [existing|ex]; [|done].
  split.
  - intros Hentries.
    destruct (config_flow.current_entries _) as [|e es]; [done|]. by cbn.
  - intros ->. cbn. by rewrite <- !app_assoc.
Qed.

(** X20, instance: one entry exists. *)
Lemma X20_user_step_single_instance_witness :
  hresult (config_flow.async_step_user (sample_flow [sample_entry] (Some sample_entry)) None)
    fresh_world
  = Ok (config_flow.FlowAbort "single_instance_allowed")
  /\ hcalls (config_flow.async_step_user (sample_flow [sample_entry] (Some sample_entry)) None)
       fresh_world
     = [HostSetUniqueId "zehndercloud"].
Proof.
  pose proof (X20_user_step_single_instance
                (sample_flow [sample_entry] (Some sample_entry)) None fresh_world eq_refl)
    as Hx.
  cbn zeta in Hx. apply (proj1 Hx). discriminate.
Defined.

(** X21.  The reauth steps: [async_step_reauth] shows the form
    "reauth_confirm" without calling the host; confirming the form runs the
    user step with no input, so the confirmation's input is dropped, and
    while the host reports an existing entry of the domain the confirmation
    ends in the abort "single_instance_allowed" instead of an OAuth step. *)
Theorem X21_reauth_confirm_runs_user_step (self : config_flow.ZehnderCloudControlFlowHandler) (entry_data user_input : gmap string PyVal) (w : World) :
  exec (config_flow.async_step_reauth self entry_data) w
    = (w, Ok (config_flow.FlowForm "reauth_confirm"))
  /\ config_flow.async_step_reauth_confirm self (Some user_input)
     = config_flow.async_step_user self None
  /\ (is_Ok (config_flow.set_unique_id (config_flow.host self)) = true ->
      config_flow.current_entries (config_flow.host self) <> [] ->
      hresult (config_flow.async_step_reauth_confirm self (Some user_input)) w
        = Ok (config_flow.FlowAbort "single_instance_allowed")
      /\ hcalls (config_flow.async_step_reauth_confirm self (Some user_input)) w
         = (calls w ++ [HostSetUniqueId "zehndercloud"])%list).
Proof.
  split; [done|]. split; [done|].
  intros Hid Hentries.
  unfold hresult, hcalls, config_flow.async_step_reauth_confirm, config_flow.async_step_user.
  rewrite exec_bind. cbn [exec hemit]. rewrite exec_bind. cbn [exec hlift].
  destruct (config_flow.set_unique_id _) as [existing|ex]; [|done].
  destruct (config_flow.current_entries _) as [|e es]; [done|]. by cbn.
Qed.

(** X21, instance: the entry under reauthentication exists. *)
Lemma X21_reauth_confirm_runs_user_step_witness :
  hresult (config_flow.async_step_reauth_confirm
             (sample_flow [sample_entry] (Some sample_entry)) (Some ∅)) fresh_world
  = Ok (config_flow.FlowAbort "single_instance_allowed")
  /\ hcalls (config_flow.async_step_reauth_confirm
               (sample_flow [sample_entry] (Some sample_entry)) (Some ∅)) fresh_world
     = [HostSetUniqueId "zehndercloud"].
Proof.
  pose proof (X21_reauth_confirm_runs_user_step
                (sample_flow [sample_entry] (Some sample_entry)) ∅ ∅ fresh_world)
    as Hx.
  destruct Hx as (_ & _ & Hx). apply Hx; [reflexivity | discriminate].
Defined.

(** X22.  Creating the entry at the end of the OAuth flow: when the host
    finds an existing entry for the domain, that entry is updated with the
    new data and reloaded, once each and in this order, the parent's
    creation is not run, and the flow aborts with "reauth_successful" (an
    exception of the reload propagates, after the update); when there is no
    entry, the answer is the parent's creation of one. *)
Theorem X22_oauth_create_entry_updates_existing (self : config_flow.ZehnderCloudControlFlowHandler) (data : gmap string PyVal) (w : World) :
  let create := config_flow.async_oauth_create_entry self data in
  (forall existing,
     config_flow.set_unique_id (config_flow.host self) = Ok (Some existing) ->
     hcalls create w
       = (calls w ++ [HostSetUniqueId "zehndercloud";
                      HostUpdateEntry (entry_id existing) data;
                      HostReload (entry_id existing)])%list
     /\ hresult create w
        = match config_flow.reload (config_flow.host self) with
          | Ok _ => Ok (config_flow.FlowAbort "reauth_successful")
          | Raise ex => Raise ex
          end)
  /\ (config_flow.set_unique_id (config_flow.host self) = Ok None ->
      hcalls create w
        = (calls w ++ [HostSetUniqueId "zehndercloud"; HostSuperOauthCreateEntry data])%list
      /\ hresult create w
         = config_flow.super_async_oauth_create_entry (config_flow.host self) data).
Proof.
  cbn zeta. unfold hresult, hcalls, config_flow.async_oauth_create_entry.
  rewrite exec_bind. cbn [exec hemit]. rewrite exec_bind. cbn [exec hlift].
  split.
  - intros existing ->. cbn. rewrite <- !app_assoc. cbn.
    by destruct (config_flow.reload _).
  - intros ->. cbn. by rewrite <- !app_assoc.
Qed.

(** X22, instance: reauthentication of the existing entry. *)
Lemma X22_oauth_create_entry_updates_existing_witness :
  hcalls (config_flow.async_oauth_create_entry
            (sample_flow [sample_entry] (Some sample_entry))
            {[ "token" := VStr "t" ]}) fresh_world
    = [HostSetUniqueId "zehndercloud";
       HostUpdateEntry "entry-1" {[ "token" := VStr "t" ]};
       HostReload "entry-1"]
  /\ hresult (config_flow.async_oauth_create_entry
                (sample_flow [sample_entry] (Some sample_entry))
                {[ "token" := VStr "t" ]}) fresh_world
     = Ok (config_flow.FlowAbort "reauth_successful").
Proof.
  pose proof (X22_oauth_create_entry_updates_existing
                (sample_flow [sample_entry] (Some sample_entry))
                {[ "token" := VStr "t" ]} fresh_world) as Hx.
  cbn zeta in Hx. apply (proj1 Hx sample_entry). reflexivity.
Defined.

(** ** The OAuth implementation *)

(** X23.  A token request is passed to the parent with every field of
    [data] as given, except that a non-empty code verifier is written under
    "code_verifier", replacing what was there; with no verifier ([None], as
    registered by setup) or an empty one the request is passed on
    unchanged.  The parent's answer, or exception, is the result. *)
Theorem X23_token_request_adds_verifier (self : oauth_impl.ZehnderCloudOauth2Implementation) (data : gmap string PyVal) (w : World) :
  let sent := oauth_impl.with_code_verifier self data in
  hcalls (oauth_impl._token_request self data) w = (calls w ++ [HostSuperTokenRequest sent])%list
  /\ hresult (oauth_impl._token_request self data) w = oauth_impl.super_token_request self sent
  /\ (forall key, key <> "code_verifier" -> sent !! key = data !! key)
  /\ (forall verifier,
        oauth_impl.auth_code_verifier self = Some verifier ->
        verifier <> EmptyString ->
        sent !! "code_verifier" = Some (VStr verifier))
  /\ (oauth_impl.auth_code_verifier self = None
      \/ oauth_impl.auth_code_verifier self = Some EmptyString ->
      sent = data).
Proof.
  cbn zeta. split; [done|]. split; [done|].
  unfold oauth_impl.with_code_verifier.
  split; [|split].
  - intros key Hne. destruct (oauth_impl.auth_code_verifier self) as [v|]; [|done].
    destruct (String.eqb v EmptyString); [done|]. by rewrite lookup_insert_ne.
  - intros verifier -> Hne.
    destruct (String.eqb_spec verifier EmptyString) as [->|_]; [done|].
    by rewrite lookup_insert_eq.
  - by intros [-> | ->].
Qed.

(** X23, instance: the flow's implementation replaces a stale verifier. *)
Lemma X23_token_request_adds_verifier_witness :
  oauth_impl.with_code_verifier
    {| oauth_impl.auth_code_verifier := Some "verifier-abc";
       oauth_impl.super_token_request := fun data => Ok data |}
    {[ "grant_type" := VStr "authorization_code"; "code_verifier" := VStr "stale" ]}
  !! "code_verifier"
  = Some (VStr "verifier-abc").
Proof.
  pose proof (X23_token_request_adds_verifier
                {| oauth_impl.auth_code_verifier := Some "verifier-abc";
                   oauth_impl.super_token_request := fun data => Ok data |}
                {[ "grant_type" := VStr "authorization_code"; "code_verifier" := VStr "stale" ]}
                fresh_world) as Hx.
  cbn zeta in Hx. destruct Hx as (_ & _ & _ & Hx & _).
  apply Hx; [reflexivity | discriminate].
Defined.
